(** * CapFlow front-end: Products and Machines modules, REST wrapper

    A shallow embedding of [api.js] (the [request] wrapper), [machines.js]
    and [products.js].  Module variables ([allMachines], [editingMachine],
    ...) and the part of the DOM the handlers read and write are fields of
    an explicit state record that every handler takes and returns.  Promises
    are run to completion: an [await] is the point where the backend's
    answer for the call is looked up. *)

From Stdlib Require Import ZArith QArith Bool Lia.
From stdpp Require Import base list strings pretty gmap.

Set Warnings "-register-all".
Open Scope string_scope.

(** ** JavaScript values *)

(** A JS number: NaN, the two infinities, or a finite value.  [-0] and [0]
    are both [Fin 0]: neither [||] nor [<] tells them apart. *)
Inductive number :=
  | NaN
  | Inf (negative : bool)
  | Fin (q : Q).

(** ToBoolean on a number: NaN and zero are falsy. *)
Definition number_truthy (x : number) : bool :=
  match x with
  | NaN => false
  | Inf _ => true
  | Fin q => negb (Qeq_bool q 0)
  end.

(** [x < 0] on numbers; a comparison with NaN is false. *)
Definition number_lt0 (x : number) : bool :=
  match x with
  | NaN => false
  | Inf negative => negative
  | Fin q => negb (Qle_bool 0 q)
  end.

(** A value parsed from JSON.  An object is the list of its own
    properties. *)
Inductive json :=
  | JNull
  | JBool (b : bool)
  | JNum (x : number)
  | JStr (s : string)
  | JArr (items : list json)
  | JObj (props : list (string * json)).

(** The value of an entity's lifecycle flag as the backend sent it; the
    property may be missing ([VUndefined]) or hold something that is not a
    boolean. *)
Inductive jsval :=
  | VUndefined
  | VNull
  | VBool (b : bool)
  | VNum (x : number)
  | VStr (s : string).

(** [v !== false] *)
Definition not_strictly_false (v : jsval) : bool :=
  match v with
  | VBool false => false
  | _ => true
  end.

(** [v === false] *)
Definition strictly_false (v : jsval) : bool :=
  match v with
  | VBool false => true
  | _ => false
  end.

(** A backend identifier: a number or a string. *)
Inductive jsid :=
  | IdNum (n : Z)
  | IdStr (s : string).

(** [String(id)] *)
Definition String_ (i : jsid) : string :=
  match i with
  | IdNum n => pretty n
  | IdStr s => s
  end.

(** [String(b)] for a boolean. *)
Definition String_of_bool (b : bool) : string :=
  if b then "true" else "false".

(** ToBoolean on a string: only the empty string is falsy. *)
Definition truthy (s : string) : bool :=
  match s with
  | EmptyString => false
  | String _ _ => true
  end.

(** [hay.includes(needle)] *)
Fixpoint includes (hay needle : string) : bool :=
  if String.prefix needle hay then true
  else match hay with
       | EmptyString => false
       | String _ rest => includes rest needle
       end.

(** [s === t] on strings. *)
Definition str_eqb (s t : string) : bool := bool_decide (s = t).

(** The built-ins of the host whose results depend on Unicode tables or
    on floating-point parsing and printing.  The handlers are written
    against this interface; [ascii_builtins] below is an instance that can
    be run. *)
Class JSBuiltins := {
  toLowerCase : string -> string;
  trim : string -> string;
  parseFloat : string -> number;
  Number_ : string -> number;
  number_toString : number -> string;
  JSON_stringify : json -> string;
}.

(** ** api.js *)

Module Api.

Definition API_BASE : string := "/api".

(** What [response.json()] settles to. *)
Inductive JsonResult :=
  | Parsed (j : json)
  | ParseError (message : string).

Record Response := {
  status : Z;
  statusText : string;
  body : JsonResult;
}.

(** [response.ok] *)
Definition ok (r : Response) : bool :=
  (200 <=? status r)%Z && (status r <=? 299)%Z.

(** What [fetch] settles to: a rejection (network failure) or a response. *)
Inductive FetchOutcome :=
  | NetworkError (message : string)
  | Responded (r : Response).

(** The [options] argument: each property may be missing. *)
Record Options := {
  method : option string;
  opt_body : option json;
  opt_headers : option (gmap string string);
}.

(** The configuration handed to [fetch]. *)
Record Config := {
  cfg_method : option string;
  cfg_body : option string;
  cfg_headers : gmap string string;
}.

Definition defaultHeaders : gmap string string :=
  <["Content-Type" := "application/json"]>
    (<["Accept" := "application/json"]> ∅).

(** What the promise returned by [request] settles to: a value, an
    error with a message, or the TypeError the engine raises when
    [new Error(v)] cannot turn [v] into a string. *)
Inductive Result :=
  | Resolved (payload : json)
  | Rejected (message : string)
  | RejectedTypeError.

Section Request.
Context `{JSBuiltins}.

(** ToBoolean on a parsed value. *)
Definition json_truthy (j : json) : bool :=
  match j with
  | JNull => false
  | JBool b => b
  | JNum x => number_truthy x
  | JStr s => truthy s
  | JArr _ => true
  | JObj _ => true
  end.

(** [items.join(",")], given the string of each item. *)
Fixpoint join_comma (parts : list string) : string :=
  match parts with
  | [] => ""
  | [p] => p
  | p :: rest => p +:+ "," +:+ join_comma rest
  end.

(** Own-property lookup in a parsed object. *)
Fixpoint get_prop (key : string) (props : list (string * json)) : option json :=
  match props with
  | [] => None
  | (k, v) :: rest => if str_eqb k key then Some v else get_prop key rest
  end.

(** ToString on a parsed value, as [new Error(v)] applies it; [None]
    when the conversion throws.  An object whose own properties include
    [toString] has no callable [toString] and an inherited [valueOf] that
    answers the object itself, so it cannot be converted; any other
    object is converted by [Object.prototype.toString].  An array joins
    the strings of its elements, [null] counting as the empty string. *)
Fixpoint json_toString (j : json) : option string :=
  match j with
  | JNull => Some "null"
  | JBool b => Some (String_of_bool b)
  | JNum x => Some (number_toString x)
  | JStr s => Some s
  | JArr items =>
      option_map join_comma
        ((fix elements (l : list json) : option (list string) :=
            match l with
            | [] => Some []
            | item :: rest =>
                match
                  match item with
                  | JNull => Some ""
                  | _ => json_toString item
                  end,
                  elements rest
                with
                | Some s, Some ss => Some (s :: ss)
                | _, _ => None
                end
            end) items)
  | JObj props =>
      match get_prop "toString" props with
      | Some _ => None
      | None => Some "[object Object]"
      end
  end.

(** The message of the error the non-2xx branch throws: the [try] block
    computes [errorData.message || errorMessage] with every exception
    swallowed, and [new Error] then converts the value outside the
    block; [None] when that conversion throws. *)
Definition error_message (r : Response) : option string :=
  let errorMessage :=
    "Error " +:+ pretty (status r) +:+ ": " +:+ statusText r in
  match body r with
  | ParseError _ => Some errorMessage
  | Parsed JNull => Some errorMessage
  | Parsed (JObj props) =>
      match get_prop "message" props with
      | Some v => if json_truthy v then json_toString v else Some errorMessage
      | None => Some errorMessage
      end
  | Parsed _ => Some errorMessage
  end.

(** The [config] object: the caller's headers over the default ones, and
    a body that is an object or an array replaced by its JSON text.  Any
    other body goes to [fetch] as it is, which sends a string unchanged,
    no body for [null] and the string of a boolean or a number. *)
Definition build_config (options : Options) : Config :=
  {| cfg_method := method options;
     cfg_body :=
       match opt_body options with
       | None => None
       | Some (JArr _ as j) | Some (JObj _ as j) => Some (JSON_stringify j)
       | Some JNull => None
       | Some (JBool b) => Some (String_of_bool b)
       | Some (JNum x) => Some (number_toString x)
       | Some (JStr s) => Some s
       end;
     cfg_headers := default ∅ (opt_headers options) ∪ defaultHeaders |}.

Definition request (fetch : string -> Config -> FetchOutcome)
    (endpoint : string) (options : Options) : Result :=
  let url := API_BASE +:+ endpoint in
  let config := build_config options in
  match fetch url config with
  | NetworkError message => Rejected message
  | Responded response =>
      if negb (ok response) then
        match error_message response with
        | Some message => Rejected message
        | None => RejectedTypeError
        end
      else if (status response =? 204)%Z then Resolved JNull
      else match body response with
           | Parsed j => Resolved j
           | ParseError message => Rejected message
           end
  end.

(** [ProductsAPI]: the four calls of the products facade. *)
Definition ProductsAPI_getAll (fetch : string -> Config -> FetchOutcome)
    : Result :=
  request fetch "/products"
    {| method := None; opt_body := None; opt_headers := None |}.

Definition ProductsAPI_create (fetch : string -> Config -> FetchOutcome)
    (data : json) : Result :=
  request fetch "/products"
    {| method := Some "POST"; opt_body := Some data; opt_headers := None |}.

Definition ProductsAPI_update (fetch : string -> Config -> FetchOutcome)
    (id : jsid) (data : json) : Result :=
  request fetch ("/products/" +:+ String_ id)
    {| method := Some "PUT"; opt_body := Some data; opt_headers := None |}.

Definition ProductsAPI_setStatus (fetch : string -> Config -> FetchOutcome)
    (id : jsid) (active : bool) : Result :=
  request fetch ("/products/" +:+ String_ id +:+ "/status")
    {| method := Some "PUT";
       opt_body := Some (JObj [("active", JBool active)]);
       opt_headers := None |}.

End Request.
End Api.

(** ** Shared DOM pieces *)

(** The double-quote character, for messages that quote a value. *)
Definition dquote : string := String (Ascii.ascii_of_nat 34) EmptyString.

(** What a text input holds after [input.value = s]: the line feeds and
    carriage returns of [s] are stripped. *)
Fixpoint text_input_value (s : string) : string :=
  match s with
  | EmptyString => EmptyString
  | String c rest =>
      if (Ascii.N_of_ascii c =? 10)%N || (Ascii.N_of_ascii c =? 13)%N
      then text_input_value rest
      else String c (text_input_value rest)
  end.

(** What a textarea gives back after [textarea.value = s]: a carriage
    return followed by a line feed, and any other carriage return, reads
    as one line feed. *)
Fixpoint textarea_value (s : string) : string :=
  match s with
  | EmptyString => EmptyString
  | String c rest =>
      if (Ascii.N_of_ascii c =? 13)%N then
        match rest with
        | String d rest' =>
            if (Ascii.N_of_ascii d =? 10)%N
            then String d (textarea_value rest')
            else String (Ascii.ascii_of_N 10) (textarea_value rest)
        | EmptyString => String (Ascii.ascii_of_N 10) EmptyString
        end
      else String c (textarea_value rest)
  end.

(** The markup a handler writes into the form title or the submit button
    with [innerHTML]. *)
Inductive Markup :=
  | MarkupCreate
  | MarkupEdit
  | MarkupSaving.

(** The submit button: [innerHTML], [disabled], [dataset.originalText]. *)
Record Button := {
  innerHTML : Markup;
  disabled : bool;
  originalText : option Markup;
}.

(** [setButtonLoading(btn, loading)]; the same function in both modules.
    A markup string is never empty, so [originalText || innerHTML] keeps an
    [originalText] that is set. *)
Definition setButtonLoading (btn : Button) (loading : bool) : Button :=
  let orig := default (innerHTML btn) (originalText btn) in
  {| disabled := loading;
     originalText := Some orig;
     innerHTML := if loading then MarkupSaving else orig |}.

(** The three blocks of a table card and the rows of its [tbody]; a row is
    kept as the entity it was built from. *)
Record Table (E : Type) := {
  loading_display : string;
  wrapper_display : string;
  empty_display : string;
  tbody : list E;
}.
Arguments loading_display {E} _.
Arguments wrapper_display {E} _.
Arguments empty_display {E} _.
Arguments tbody {E} _.

(** [showTableLoading(loading)] on the table card. *)
Definition table_showLoading {E} (loading : bool) (t : Table E) : Table E :=
  {| loading_display := if loading then "flex" else "none";
     wrapper_display := if loading then "none" else "";
     empty_display := "none";
     tbody := tbody t |}.

(** [renderTable(rows)] on the table card. *)
Definition table_render {E} (rows : list E) (t : Table E) : Table E :=
  let t := table_showLoading false t in
  match rows with
  | [] =>
      {| loading_display := loading_display t;
         wrapper_display := "none";
         empty_display := "flex";
         tbody := tbody t |}
  | _ :: _ =>
      {| loading_display := loading_display t;
         wrapper_display := "block";
         empty_display := "none";
         tbody := rows |}
  end.

(** What an API promise settles to.  Only [getAll] reads the value. *)
Inductive Settled (E : Type) :=
  | Fulfilled (value : list E)
  | RejectedWith (message : string).
Arguments Fulfilled {E} _.
Arguments RejectedWith {E} _.

(** ** machines.js *)

Module Machines.

Record Machine := {
  id : jsid;
  name : string;
  code : string;
  notes : option string;
  isActive : jsval;
}.

(** The object built by [collectFormData]; [p_isActive] is [None] when the
    property is not set. *)
Record Payload := {
  p_name : string;
  p_code : string;
  p_notes : string;
  p_isActive : option bool;
}.

(** The calls the module makes on [MachinesAPI]. *)
Inductive ApiCall :=
  | GetAll
  | Create (data : Payload)
  | Update (target : jsid) (data : Payload)
  | Activate (target : string)
  | Deactivate (target : string).

(** [MachinesAPI] is imported from api.js and is taken as a parameter: the
    backend answers a call knowing the calls made before it. *)
Definition Backend := list ApiCall -> ApiCall -> Settled Machine.

Record Toast := {
  toast_message : string;
  toast_type : string;
}.

(** The form and its inline errors. *)
Record Form := {
  field_id : string;
  field_name : string;
  field_code : string;
  field_notes : string;
  field_active : string;
  status_group_display : string;
  error_name : string;
  error_code : string;
  form_title : Markup;
  cancel_display : string;
}.

(** Module variables, then the DOM after mount (every element the handlers
    look up by id is present), then the calls made so far. *)
Record State := {
  editingMachine : option Machine;
  allMachines : list Machine;
  activeFilter : string;
  form : Form;
  submit_btn : Button;
  search : string;
  filter_status : string;
  count_badge : string;
  table : Table Machine;
  toasts : list Toast;
  calls : list ApiCall;
}.

Definition set_editingMachine (e : option Machine) (st : State) : State :=
  {| editingMachine := e; allMachines := allMachines st;
     activeFilter := activeFilter st; form := form st;
     submit_btn := submit_btn st; search := search st;
     filter_status := filter_status st; count_badge := count_badge st;
     table := table st; toasts := toasts st; calls := calls st |}.

Definition set_allMachines (l : list Machine) (st : State) : State :=
  {| editingMachine := editingMachine st; allMachines := l;
     activeFilter := activeFilter st; form := form st;
     submit_btn := submit_btn st; search := search st;
     filter_status := filter_status st; count_badge := count_badge st;
     table := table st; toasts := toasts st; calls := calls st |}.

Definition set_activeFilter (f : string) (st : State) : State :=
  {| editingMachine := editingMachine st; allMachines := allMachines st;
     activeFilter := f; form := form st;
     submit_btn := submit_btn st; search := search st;
     filter_status := filter_status st; count_badge := count_badge st;
     table := table st; toasts := toasts st; calls := calls st |}.

Definition set_form (f : Form) (st : State) : State :=
  {| editingMachine := editingMachine st; allMachines := allMachines st;
     activeFilter := activeFilter st; form := f;
     submit_btn := submit_btn st; search := search st;
     filter_status := filter_status st; count_badge := count_badge st;
     table := table st; toasts := toasts st; calls := calls st |}.

Definition set_submit_btn (b : Button) (st : State) : State :=
  {| editingMachine := editingMachine st; allMachines := allMachines st;
     activeFilter := activeFilter st; form := form st;
     submit_btn := b; search := search st;
     filter_status := filter_status st; count_badge := count_badge st;
     table := table st; toasts := toasts st; calls := calls st |}.

(** The user types in the search box. *)
Definition set_search (s : string) (st : State) : State :=
  {| editingMachine := editingMachine st; allMachines := allMachines st;
     activeFilter := activeFilter st; form := form st;
     submit_btn := submit_btn st; search := s;
     filter_status := filter_status st; count_badge := count_badge st;
     table := table st; toasts := toasts st; calls := calls st |}.

(** The user picks an option of the status filter. *)
Definition set_filter_status (s : string) (st : State) : State :=
  {| editingMachine := editingMachine st; allMachines := allMachines st;
     activeFilter := activeFilter st; form := form st;
     submit_btn := submit_btn st; search := search st;
     filter_status := s; count_badge := count_badge st;
     table := table st; toasts := toasts st; calls := calls st |}.

Definition set_count_badge (s : string) (st : State) : State :=
  {| editingMachine := editingMachine st; allMachines := allMachines st;
     activeFilter := activeFilter st; form := form st;
     submit_btn := submit_btn st; search := search st;
     filter_status := filter_status st; count_badge := s;
     table := table st; toasts := toasts st; calls := calls st |}.

Definition set_table (t : Table Machine) (st : State) : State :=
  {| editingMachine := editingMachine st; allMachines := allMachines st;
     activeFilter := activeFilter st; form := form st;
     submit_btn := submit_btn st; search := search st;
     filter_status := filter_status st; count_badge := count_badge st;
     table := t; toasts := toasts st; calls := calls st |}.

Definition set_toasts (l : list Toast) (st : State) : State :=
  {| editingMachine := editingMachine st; allMachines := allMachines st;
     activeFilter := activeFilter st; form := form st;
     submit_btn := submit_btn st; search := search st;
     filter_status := filter_status st; count_badge := count_badge st;
     table := table st; toasts := l; calls := calls st |}.

Definition set_calls (l : list ApiCall) (st : State) : State :=
  {| editingMachine := editingMachine st; allMachines := allMachines st;
     activeFilter := activeFilter st; form := form st;
     submit_btn := submit_btn st; search := search st;
     filter_status := filter_status st; count_badge := count_badge st;
     table := table st; toasts := toasts st; calls := l |}.

(** [await MachinesAPI.<call>]: the call is recorded and the backend's
    answer returned. *)
Definition await (api : Backend) (c : ApiCall) (st : State)
    : Settled Machine * State :=
  (api (calls st) c, set_calls (calls st ++ [c]) st).

Definition showTableLoading (loading : bool) (st : State) : State :=
  set_table (table_showLoading loading (table st)) st.

Definition renderTable (machines : list Machine) (st : State) : State :=
  set_table (table_render machines (table st)) st.

(** [showFeedback(message, type)]: a toast is appended to the container;
    its removal after [duration] is not part of the state. *)
Definition showFeedback (message type : string) (st : State) : State :=
  set_toasts (toasts st ++ [{| toast_message := message; toast_type := type |}]) st.

(** The suffix [máquina] or [máquinas] of the badge. *)
Definition noun (total : nat) : string :=
  " máquina" +:+ (if bool_decide (total ≠ 1%nat) then "s" else "").

(** [updateCountBadge(total, filtered)]; [None] is [null]. *)
Definition updateCountBadge (total : nat) (filtered : option nat)
    (st : State) : State :=
  match filtered with
  | Some f =>
      if bool_decide (f ≠ total)
      then set_count_badge (pretty f +:+ " de " +:+ pretty total +:+ noun total) st
      else set_count_badge (pretty total +:+ noun total) st
  | None => set_count_badge (pretty total +:+ noun total) st
  end.

Definition set_error (errorId message : string) (f : Form) : Form :=
  {| field_id := field_id f; field_name := field_name f;
     field_code := field_code f; field_notes := field_notes f;
     field_active := field_active f;
     status_group_display := status_group_display f;
     error_name :=
       if str_eqb errorId "machine-error-name" then message else error_name f;
     error_code :=
       if str_eqb errorId "machine-error-code" then message else error_code f;
     form_title := form_title f; cancel_display := cancel_display f |}.

(** [showFieldError(errorId, message)]: an id that names no element of the
    form changes nothing. *)
Definition showFieldError (errorId message : string) (st : State) : State :=
  set_form (set_error errorId message (form st)) st.

(** [clearFormErrors()]: every [.form-error] of the form is emptied; the
    error class of the inputs is not part of the state. *)
Definition clearFormErrors (st : State) : State :=
  let f := form st in
  set_form
    {| field_id := field_id f; field_name := field_name f;
       field_code := field_code f; field_notes := field_notes f;
       field_active := field_active f;
       status_group_display := status_group_display f;
       error_name := ""; error_code := "";
       form_title := form_title f; cancel_display := cancel_display f |} st.

(** [resetFormToCreateMode()].  [form.reset()] empties the text inputs and
    selects the first option of the status select; the hidden id is set
    by hand. *)
Definition resetFormToCreateMode (st : State) : State :=
  let st := set_editingMachine None st in
  let f := form st in
  let st :=
    set_form
      {| field_id := ""; field_name := ""; field_code := "";
         field_notes := ""; field_active := "true";
         status_group_display := "none";
         error_name := error_name f; error_code := error_code f;
         form_title := MarkupCreate; cancel_display := "none" |} st in
  let st :=
    set_submit_btn
      {| innerHTML := MarkupCreate; disabled := disabled (submit_btn st);
         originalText := originalText (submit_btn st) |} st in
  clearFormErrors st.

(** [String(m.id) === String(other)] *)
Definition same_id (m : Machine) (other : string) : bool :=
  str_eqb (String_ (id m)) other.

Section Handlers.
Context `{JSBuiltins}.

(** The callback of the text search: name OR code contains the query. *)
Definition matches_query (query : string) (m : Machine) : bool :=
  includes (toLowerCase (name m)) query
  || includes (toLowerCase (code m)) query.

(** The locals [query] and [status] of [applyFilters]. *)
Definition filter_query (st : State) : string :=
  toLowerCase (trim (search st)).

Definition filter_status_value (st : State) : string :=
  if truthy (filter_status st) then filter_status st else "all".

(** The local [results] of [applyFilters] when it reaches
    [renderTable]. *)
Definition filter_results (st : State) : list Machine :=
  let query := filter_query st in
  let status := filter_status_value st in
  let results := allMachines st in
  let results :=
    if truthy query then List.filter (matches_query query) results
    else results in
  if str_eqb status "active" then
    List.filter (fun m => not_strictly_false (isActive m)) results
  else if str_eqb status "inactive" then
    List.filter (fun m => strictly_false (isActive m)) results
  else results.

Definition applyFilters (st : State) : State :=
  let query := filter_query st in
  let status := filter_status_value st in
  let results := filter_results st in
  let st := set_activeFilter status st in
  let isFiltered := truthy query || negb (str_eqb status "all") in
  let st :=
    updateCountBadge (length (allMachines st))
      (if isFiltered then Some (length results) else None) st in
  renderTable results st.

Definition loadMachines (api : Backend) (st : State) : State :=
  let st := showTableLoading true st in
  let (r, st) := await api GetAll st in
  match r with
  | Fulfilled machines => applyFilters (set_allMachines machines st)
  | RejectedWith message =>
      let st :=
        showFeedback ("Error al cargar máquinas: " +:+ message) "error" st in
      showTableLoading false st
  end.

(** The callback of [some] shared by the two duplicate checks, on the
    field read by [get]. *)
Definition is_duplicate_of (get : Machine -> string) (normalized : string)
    (st : State) (m : Machine) : bool :=
  match editingMachine st with
  | Some e =>
      if same_id m (String_ (id e)) then false
      else str_eqb (toLowerCase (trim (get m))) normalized
  | None => str_eqb (toLowerCase (trim (get m))) normalized
  end.

Definition isNameDuplicate (n : string) (st : State) : bool :=
  let normalized := toLowerCase (trim n) in
  existsb (is_duplicate_of name normalized st) (allMachines st).

Definition isCodeDuplicate (c : string) (st : State) : bool :=
  let normalized := toLowerCase (trim c) in
  existsb (is_duplicate_of code normalized st) (allMachines st).

Definition validateForm (st : State) : bool * State :=
  let st := clearFormErrors st in
  let valid := true in
  let n := trim (field_name (form st)) in
  let c := trim (field_code (form st)) in
  let '(valid, st) :=
    if negb (truthy n) then
      (false, showFieldError "machine-error-name"
                "El nombre de la máquina es obligatorio." st)
    else if isNameDuplicate n st then
      (false, showFieldError "machine-error-name"
                ("Ya existe una máquina llamada " +:+ dquote +:+ n +:+ dquote
                 +:+ ". Usa un nombre diferente.") st)
    else (valid, st) in
  let '(valid, st) :=
    if negb (truthy c) then
      (false, showFieldError "machine-error-code"
                "El código de la máquina es obligatorio." st)
    else if isCodeDuplicate c st then
      (false, showFieldError "machine-error-code"
                ("El código " +:+ dquote +:+ c +:+ dquote
                 +:+ " ya está en uso. Ingresa un código único.") st)
    else (valid, st) in
  (valid, st).

Definition collectFormData (st : State) : Payload :=
  let f := form st in
  {| p_name := trim (field_name f);
     p_code := trim (field_code f);
     p_notes := trim (field_notes f);
     p_isActive :=
       if negb (str_eqb (status_group_display f) "none")
       then Some (str_eqb (field_active f) "true")
       else None |}.

Definition handleFormSubmit (api : Backend) (st : State) : State :=
  let '(valid, st) := validateForm st in
  if negb valid then st
  else
    let st := set_submit_btn (setButtonLoading (submit_btn st) true) st in
    let payload := collectFormData st in
    let st :=
      let '(call, done) :=
        match editingMachine st with
        | Some e =>
            (Update (id e) payload, "Máquina actualizada correctamente.")
        | None => (Create payload, "Máquina creada correctamente.")
        end in
      let (r, st) := await api call st in
      match r with
      | Fulfilled _ =>
          let st := showFeedback done "success" st in
          let st := resetFormToCreateMode st in
          loadMachines api st
      | RejectedWith message =>
          showFeedback ("Error al guardar: " +:+ message) "error" st
      end in
    set_submit_btn (setButtonLoading (submit_btn st) false) st.

(** [handleEdit(machineId)]; the hidden id input keeps the string it is
    given, the text inputs and the textarea hold what such controls hold
    after the assignment.  Scrolling the form into view is not part of
    the state. *)
Definition handleEdit (machineId : string) (st : State) : State :=
  match List.find (fun m => same_id m machineId) (allMachines st) with
  | None => st
  | Some machine =>
      let st := set_editingMachine (Some machine) st in
      let f := form st in
      let st :=
        set_form
          {| field_id := String_ (id machine);
             field_name := text_input_value (name machine);
             field_code := text_input_value (code machine);
             field_notes := textarea_value (default "" (notes machine));
             field_active :=
               String_of_bool (not_strictly_false (isActive machine));
             status_group_display := "";
             error_name := error_name f; error_code := error_code f;
             form_title := MarkupEdit;
             cancel_display := "inline-flex" |} st in
      set_submit_btn
        {| innerHTML := MarkupEdit; disabled := disabled (submit_btn st);
           originalText := originalText (submit_btn st) |} st
  end.

(** The [if (editingMachine && ...)] block of [handleToggleStatus]. *)
Definition resync_edit_form (machineId : string) (currentlyActive : bool)
    (st : State) : State :=
  match editingMachine st with
  | Some e =>
      if same_id e machineId then
        let st :=
          set_editingMachine
            (Some {| id := id e; name := name e; code := code e;
                     notes := notes e;
                     isActive := VBool (negb currentlyActive) |}) st in
        let f := form st in
        set_form
          {| field_id := field_id f; field_name := field_name f;
             field_code := field_code f; field_notes := field_notes f;
             field_active := String_of_bool (negb currentlyActive);
             status_group_display := status_group_display f;
             error_name := error_name f; error_code := error_code f;
             form_title := form_title f;
             cancel_display := cancel_display f |} st
      else st
  | None => st
  end.

(** [handleToggleStatus(machineId, currentlyActive)]; [confirmed] is the
    user's answer to the [confirm] dialog. *)
Definition handleToggleStatus (api : Backend) (confirmed : bool)
    (machineId : string) (currentlyActive : bool) (st : State) : State :=
  if negb confirmed then st
  else
    let '(call, done, type) :=
      if currentlyActive
      then (Deactivate machineId, "Máquina desactivada.", "warning")
      else (Activate machineId, "Máquina activada.", "success") in
    let (r, st) := await api call st in
    match r with
    | Fulfilled _ =>
        let st := showFeedback done type st in
        let st := resync_edit_form machineId currentlyActive st in
        loadMachines api st
    | RejectedWith message =>
        showFeedback ("Error al cambiar estado: " +:+ message) "error" st
    end.

End Handlers.

(** The module as loaded, with the markup of [buildModuleHTML] in the
    page and no call made yet. *)
Definition initial : State :=
  {| editingMachine := None; allMachines := []; activeFilter := "all";
     form :=
       {| field_id := ""; field_name := ""; field_code := "";
          field_notes := ""; field_active := "true";
          status_group_display := "none";
          error_name := ""; error_code := "";
          form_title := MarkupCreate; cancel_display := "none" |};
     submit_btn :=
       {| innerHTML := MarkupCreate; disabled := false;
          originalText := None |};
     search := ""; filter_status := "all";
     count_badge := "— máquinas";
     table :=
       {| loading_display := ""; wrapper_display := "none";
          empty_display := "none"; tbody := [] |};
     toasts := []; calls := [] |}.

End Machines.

(** ** products.js *)

Module Products.

Record Product := {
  id : jsid;
  name : string;
  type : string;
  priceStandard : option number;
  priceInvestor : option number;
  active : jsval;
}.

(** The object built by [collectFormData]; a [None] investor price is
    [null]. *)
Record Payload := {
  p_name : string;
  p_type : string;
  p_priceStandard : number;
  p_priceInvestor : option number;
  p_active : bool;
}.

(** The calls the module makes on [ProductsAPI]. *)
Inductive ApiCall :=
  | GetAll
  | Create (data : Payload)
  | Update (target : jsid) (data : Payload)
  | SetStatus (target : string) (newActive : bool).

(** [ProductsAPI] seen from the module: the backend answers a call knowing
    the calls made before it. *)
Definition Backend := list ApiCall -> ApiCall -> Settled Product.

(** The feedback banner: [textContent] and the type in its [className]. *)
Record Banner := {
  banner_text : string;
  banner_type : string;
}.

Record Form := {
  field_id : string;
  field_name : string;
  field_type : string;
  field_price_standard : string;
  field_price_investor : string;
  field_active : string;
  error_name : string;
  error_type : string;
  error_price_standard : string;
  form_title : Markup;
  cancel_display : string;
}.

(** Module variables, then the DOM after mount (every element the handlers
    look up by id is present), then the calls made so far. *)
Record State := {
  editingProduct : option Product;
  allProducts : list Product;
  form : Form;
  submit_btn : Button;
  search : string;
  count_badge : string;
  table : Table Product;
  banner : option Banner;
  calls : list ApiCall;
}.

Definition set_editingProduct (e : option Product) (st : State) : State :=
  {| editingProduct := e; allProducts := allProducts st; form := form st;
     submit_btn := submit_btn st; search := search st;
     count_badge := count_badge st; table := table st;
     banner := banner st; calls := calls st |}.

Definition set_allProducts (l : list Product) (st : State) : State :=
  {| editingProduct := editingProduct st; allProducts := l; form := form st;
     submit_btn := submit_btn st; search := search st;
     count_badge := count_badge st; table := table st;
     banner := banner st; calls := calls st |}.

Definition set_form (f : Form) (st : State) : State :=
  {| editingProduct := editingProduct st; allProducts := allProducts st;
     form := f;
     submit_btn := submit_btn st; search := search st;
     count_badge := count_badge st; table := table st;
     banner := banner st; calls := calls st |}.

Definition set_submit_btn (b : Button) (st : State) : State :=
  {| editingProduct := editingProduct st; allProducts := allProducts st;
     form := form st;
     submit_btn := b; search := search st;
     count_badge := count_badge st; table := table st;
     banner := banner st; calls := calls st |}.

(** The user types in the search box. *)
Definition set_search (s : string) (st : State) : State :=
  {| editingProduct := editingProduct st; allProducts := allProducts st;
     form := form st;
     submit_btn := submit_btn st; search := s;
     count_badge := count_badge st; table := table st;
     banner := banner st; calls := calls st |}.

Definition set_count_badge (s : string) (st : State) : State :=
  {| editingProduct := editingProduct st; allProducts := allProducts st;
     form := form st;
     submit_btn := submit_btn st; search := search st;
     count_badge := s; table := table st;
     banner := banner st; calls := calls st |}.

Definition set_table (t : Table Product) (st : State) : State :=
  {| editingProduct := editingProduct st; allProducts := allProducts st;
     form := form st;
     submit_btn := submit_btn st; search := search st;
     count_badge := count_badge st; table := t;
     banner := banner st; calls := calls st |}.

Definition set_banner (b : option Banner) (st : State) : State :=
  {| editingProduct := editingProduct st; allProducts := allProducts st;
     form := form st;
     submit_btn := submit_btn st; search := search st;
     count_badge := count_badge st; table := table st;
     banner := b; calls := calls st |}.

Definition set_calls (l : list ApiCall) (st : State) : State :=
  {| editingProduct := editingProduct st; allProducts := allProducts st;
     form := form st;
     submit_btn := submit_btn st; search := search st;
     count_badge := count_badge st; table := table st;
     banner := banner st; calls := l |}.

(** [await ProductsAPI.<call>]: the call is recorded and the backend's
    answer returned. *)
Definition await (api : Backend) (c : ApiCall) (st : State)
    : Settled Product * State :=
  (api (calls st) c, set_calls (calls st ++ [c]) st).

Definition showTableLoading (loading : bool) (st : State) : State :=
  set_table (table_showLoading loading (table st)) st.

Definition renderTable (products : list Product) (st : State) : State :=
  set_table (table_render products (table st)) st.

(** [showFeedback(message, type)]: the banner shows the message; the timer
    that hides it again is not part of the state. *)
Definition showFeedback (message type : string) (st : State) : State :=
  set_banner (Some {| banner_text := message; banner_type := type |}) st.

(** [updateCountBadge(count)] *)
Definition updateCountBadge (count : nat) (st : State) : State :=
  set_count_badge
    (pretty count +:+ " producto"
     +:+ (if bool_decide (count ≠ 1%nat) then "s" else "")) st.

Definition set_error (errorId message : string) (f : Form) : Form :=
  {| field_id := field_id f; field_name := field_name f;
     field_type := field_type f;
     field_price_standard := field_price_standard f;
     field_price_investor := field_price_investor f;
     field_active := field_active f;
     error_name :=
       if str_eqb errorId "error-name" then message else error_name f;
     error_type :=
       if str_eqb errorId "error-type" then message else error_type f;
     error_price_standard :=
       if str_eqb errorId "error-price-standard" then message
       else error_price_standard f;
     form_title := form_title f; cancel_display := cancel_display f |}.

(** [showFieldError(errorId, message)]: an id that names no element
    changes nothing. *)
Definition showFieldError (errorId message : string) (st : State) : State :=
  set_form (set_error errorId message (form st)) st.

(** [clearFormErrors()]: every [.form-error] is emptied; the error class
    of the inputs is not part of the state. *)
Definition clearFormErrors (st : State) : State :=
  let f := form st in
  set_form
    {| field_id := field_id f; field_name := field_name f;
       field_type := field_type f;
       field_price_standard := field_price_standard f;
       field_price_investor := field_price_investor f;
       field_active := field_active f;
       error_name := ""; error_type := ""; error_price_standard := "";
       form_title := form_title f; cancel_display := cancel_display f |} st.

(** [resetFormToCreateMode()].  [form.reset()] empties the inputs, selects
    the placeholder of the type select and the first option of the status
    select; the hidden id is set by hand. *)
Definition resetFormToCreateMode (st : State) : State :=
  let st := set_editingProduct None st in
  let f := form st in
  let st :=
    set_form
      {| field_id := ""; field_name := ""; field_type := "";
         field_price_standard := ""; field_price_investor := "";
         field_active := "true";
         error_name := error_name f; error_type := error_type f;
         error_price_standard := error_price_standard f;
         form_title := MarkupCreate; cancel_display := "none" |} st in
  let st :=
    set_submit_btn
      {| innerHTML := MarkupCreate; disabled := disabled (submit_btn st);
         originalText := originalText (submit_btn st) |} st in
  clearFormErrors st.

(** [String(p.id) === String(other)] *)
Definition same_id (p : Product) (other : string) : bool :=
  str_eqb (String_ (id p)) other.

Section Handlers.
Context `{JSBuiltins}.

Definition loadProducts (api : Backend) (st : State) : State :=
  let st := showTableLoading true st in
  let (r, st) := await api GetAll st in
  match r with
  | Fulfilled products =>
      let st := set_allProducts products st in
      let st := renderTable (allProducts st) st in
      updateCountBadge (length (allProducts st)) st
  | RejectedWith message =>
      let st :=
        showFeedback ("Error al cargar productos: " +:+ message) "error" st in
      showTableLoading false st
  end.

(** The local [filtered] of [handleSearch]. *)
Definition search_results (st : State) : list Product :=
  let query := toLowerCase (trim (search st)) in
  if truthy query
  then List.filter (fun p => includes (toLowerCase (name p)) query)
         (allProducts st)
  else allProducts st.

(** [handleSearch(e)]; [e.target.value] is the search box. *)
Definition handleSearch (st : State) : State :=
  renderTable (search_results st) st.

Definition validateForm (st : State) : bool * State :=
  let st := clearFormErrors st in
  let valid := true in
  let n := trim (field_name (form st)) in
  let t := field_type (form st) in
  let price := field_price_standard (form st) in
  let '(valid, st) :=
    if negb (truthy n) then
      (false, showFieldError "error-name"
                "El nombre del producto es obligatorio." st)
    else (valid, st) in
  let '(valid, st) :=
    if negb (truthy t) then
      (false, showFieldError "error-type"
                "Selecciona el tipo de producto." st)
    else (valid, st) in
  let '(valid, st) :=
    if negb (truthy price) || number_lt0 (Number_ price) then
      (false, showFieldError "error-price-standard"
                "Ingresa un precio estándar válido." st)
    else (valid, st) in
  (valid, st).

Definition collectFormData (st : State) : Payload :=
  let f := form st in
  {| p_name := trim (field_name f);
     p_type := field_type f;
     p_priceStandard :=
       (let x := parseFloat (field_price_standard f) in
        if number_truthy x then x else Fin 0);
     p_priceInvestor :=
       (let x := parseFloat (field_price_investor f) in
        if number_truthy x then Some x else None);
     p_active := str_eqb (field_active f) "true" |}.

Definition handleFormSubmit (api : Backend) (st : State) : State :=
  let '(valid, st) := validateForm st in
  if negb valid then st
  else
    let st := set_submit_btn (setButtonLoading (submit_btn st) true) st in
    let payload := collectFormData st in
    let st :=
      let '(call, done) :=
        match editingProduct st with
        | Some e =>
            (Update (id e) payload, "Producto actualizado correctamente.")
        | None => (Create payload, "Producto creado correctamente.")
        end in
      let (r, st) := await api call st in
      match r with
      | Fulfilled _ =>
          let st := showFeedback done "success" st in
          let st := resetFormToCreateMode st in
          loadProducts api st
      | RejectedWith message =>
          showFeedback ("Error al guardar: " +:+ message) "error" st
      end in
    set_submit_btn (setButtonLoading (submit_btn st) false) st.

(** What a select shows after [select.value = v]: [v] when it is the value
    of one of the options, else nothing. *)
Definition select_value (options : list string) (v : string) : string :=
  if existsb (str_eqb v) options then v else "".

(** What a number input shows after [input.value = price || '']: nothing
    for a missing or falsy price or for a value that is not finite. *)
Definition price_value (price : option number) : string :=
  match price with
  | Some (Fin q) =>
      if number_truthy (Fin q) then number_toString (Fin q) else ""
  | _ => ""
  end.

(** [handleEdit(productId)]; the hidden id input keeps the string it is
    given, the other controls hold what such controls hold after the
    assignment.  Scrolling the form into view is not part of the
    state. *)
Definition handleEdit (productId : string) (st : State) : State :=
  match List.find (fun p => same_id p productId) (allProducts st) with
  | None => st
  | Some product =>
      let st := set_editingProduct (Some product) st in
      let f := form st in
      let st :=
        set_form
          {| field_id := String_ (id product);
             field_name := text_input_value (name product);
             field_type :=
               select_value [""; "produced"; "resale"] (type product);
             field_price_standard := price_value (priceStandard product);
             field_price_investor := price_value (priceInvestor product);
             field_active :=
               String_of_bool (not_strictly_false (active product));
             error_name := error_name f; error_type := error_type f;
             error_price_standard := error_price_standard f;
             form_title := MarkupEdit;
             cancel_display := "inline-flex" |} st in
      set_submit_btn
        {| innerHTML := MarkupEdit; disabled := disabled (submit_btn st);
           originalText := originalText (submit_btn st) |} st
  end.

(** [handleToggleStatus(productId, currentlyActive)]; [confirmed] is the
    user's answer to the [confirm] dialog. *)
Definition handleToggleStatus (api : Backend) (confirmed : bool)
    (productId : string) (currentlyActive : bool) (st : State) : State :=
  if negb confirmed then st
  else
    let (r, st) := await api (SetStatus productId (negb currentlyActive)) st in
    match r with
    | Fulfilled _ =>
        let msg :=
          if currentlyActive then "Producto desactivado."
          else "Producto activado." in
        let st := showFeedback msg "success" st in
        loadProducts api st
    | RejectedWith message =>
        showFeedback ("Error al cambiar estado: " +:+ message) "error" st
    end.

End Handlers.

(** The module as loaded, with the markup of [buildModuleHTML] in the
    page and no call made yet. *)
Definition initial : State :=
  {| editingProduct := None; allProducts := [];
     form :=
       {| field_id := ""; field_name := ""; field_type := "";
          field_price_standard := ""; field_price_investor := "";
          field_active := "true";
          error_name := ""; error_type := ""; error_price_standard := "";
          form_title := MarkupCreate; cancel_display := "none" |};
     submit_btn :=
       {| innerHTML := MarkupCreate; disabled := false;
          originalText := None |};
     search := "";
     count_badge := "— productos";
     table :=
       {| loading_display := ""; wrapper_display := "none";
          empty_display := "none"; tbody := [] |};
     banner := None; calls := [] |}.

End Products.

(** ** A runnable instance of the built-ins

    Strings are taken as ASCII, numbers as plain decimals without exponent;
    on such inputs the functions below agree with the host's.  The theorems
    hold for every instance; this one is used to run the handlers on
    concrete pages. *)

Module Ascii_builtins.

Definition code_of (c : Ascii.ascii) : N := Ascii.N_of_ascii c.

Definition lower_char (c : Ascii.ascii) : Ascii.ascii :=
  let n := code_of c in
  if (65 <=? n)%N && (n <=? 90)%N then Ascii.ascii_of_N (n + 32) else c.

Fixpoint lower (s : string) : string :=
  match s with
  | EmptyString => EmptyString
  | String c rest => String (lower_char c) (lower rest)
  end.

Definition is_space (c : Ascii.ascii) : bool :=
  let n := code_of c in
  (n =? 32)%N || ((9 <=? n)%N && (n <=? 13)%N).

Fixpoint trim_start (s : string) : string :=
  match s with
  | EmptyString => EmptyString
  | String c rest => if is_space c then trim_start rest else s
  end.

Definition reverse (s : string) : string :=
  String.string_of_list_ascii (rev (String.list_ascii_of_string s)).

Definition trim_both (s : string) : string :=
  reverse (trim_start (reverse (trim_start s))).

Definition is_digit (c : Ascii.ascii) : bool :=
  let n := code_of c in (48 <=? n)%N && (n <=? 57)%N.

(** Reads a run of digits: the value read after [acc], how many digits
    were read, and the rest of the string. *)
Fixpoint digits (s : string) (acc : Z) (count : nat) : Z * nat * string :=
  match s with
  | String c rest =>
      if is_digit c
      then digits rest (10 * acc + (Z.of_N (code_of c) - 48))%Z (S count)
      else (acc, count, s)
  | EmptyString => (acc, count, s)
  end.

(** The longest decimal literal at the start of [s], with what follows
    it; [None] when there is no digit. *)
Definition decimal_prefix (s : string) : option (Q * string) :=
  let '(negative, s) :=
    match s with
    | String c rest =>
        if (code_of c =? 45)%N then (true, rest)
        else if (code_of c =? 43)%N then (false, rest)
        else (false, s)
    | EmptyString => (false, s)
    end in
  let '(whole, nwhole, rest) := digits s 0%Z 0%nat in
  let '(num, nfrac, rest) :=
    match rest with
    | String c rest' =>
        if (code_of c =? 46)%N then
          let '(v, n, r) := digits rest' whole 0%nat in
          if (n =? 0)%nat && (nwhole =? 0)%nat then (whole, 0%nat, rest)
          else (v, n, r)
        else (whole, 0%nat, rest)
    | EmptyString => (whole, 0%nat, rest)
    end in
  if (nwhole + nfrac =? 0)%nat then None
  else
    let q := Qred (num # Pos.of_nat (10 ^ nfrac)) in
    Some (if negative then Qopp q else q, rest).

Definition parse_float (s : string) : number :=
  match decimal_prefix (trim_start s) with
  | Some (q, _) => Fin q
  | None => NaN
  end.

Definition to_number (s : string) : number :=
  match trim_both s with
  | EmptyString => Fin 0
  | t =>
      match decimal_prefix t with
      | Some (q, EmptyString) => Fin q
      | _ => NaN
      end
  end.

(** The digits of [r / d] after the decimal point, at most [fuel] of
    them. *)
Fixpoint fraction_digits (fuel : nat) (r d : Z) : string :=
  match fuel with
  | O => ""
  | S fuel =>
      if (r =? 0)%Z then ""
      else pretty (10 * r / d)%Z +:+ fraction_digits fuel ((10 * r) mod d)%Z d
  end.

Definition print_number (x : number) : string :=
  match x with
  | NaN => "NaN"
  | Inf negative => if negative then "-Infinity" else "Infinity"
  | Fin q =>
      let n := Qnum q in
      let d := Z.pos (Qden q) in
      let a := Z.abs n in
      let frac := fraction_digits 17 (a mod d)%Z d in
      (if (n <? 0)%Z then "-" else "")
      +:+ pretty (a / d)%Z
      +:+ (if truthy frac then "." +:+ frac else "")
  end.

(** A string literal with its quotes and backslashes escaped. *)
Fixpoint escape (s : string) : string :=
  match s with
  | EmptyString => EmptyString
  | String c rest =>
      if (code_of c =? 34)%N || (code_of c =? 92)%N
      then String (Ascii.ascii_of_N 92) (String c (escape rest))
      else String c (escape rest)
  end.

Definition quote (s : string) : string := dquote +:+ escape s +:+ dquote.

Fixpoint stringify (j : json) : string :=
  match j with
  | JNull => "null"
  | JBool b => String_of_bool b
  | JNum x => match x with Fin _ => print_number x | _ => "null" end
  | JStr s => quote s
  | JArr items => "[" +:+ String.concat "," (map stringify items) +:+ "]"
  | JObj props =>
      "{" +:+ String.concat ","
                (map (fun kv => quote (fst kv) +:+ ":" +:+ stringify (snd kv))
                   props)
      +:+ "}"
  end.

End Ascii_builtins.

Definition ascii_builtins : JSBuiltins := {|
  toLowerCase := Ascii_builtins.lower;
  trim := Ascii_builtins.trim_both;
  parseFloat := Ascii_builtins.parse_float;
  Number_ := Ascii_builtins.to_number;
  number_toString := Ascii_builtins.print_number;
  JSON_stringify := Ascii_builtins.stringify;
|}.

(** ** The specification's vocabulary *)

(** The [message] property of a response body that parsed to an object. *)
Definition body_message (r : Api.Response) : option json :=
  match Api.body r with
  | Api.Parsed (JObj props) => Api.get_prop "message" props
  | _ => None
  end.

(** The generic message of a failed request. *)
Definition generic_message (r : Api.Response) : string :=
  "Error " +:+ pretty (Api.status r) +:+ ": " +:+ Api.statusText r.

(** The error message as the specification words it: the body's [message]
    whenever the body has one, the generic message otherwise. *)
Definition spec_error_message `{JSBuiltins} (r : Api.Response) : string :=
  match body_message r with
  | Some v => default (generic_message r) (Api.json_toString v)
  | None => generic_message r
  end.

(** The status filter as the specification has it: a closed enumeration,
    with the value each option of the select carries. *)
Inductive StatusFilter :=
  | All
  | Active
  | Inactive.

Definition status_value (s : StatusFilter) : string :=
  match s with
  | All => "all"
  | Active => "active"
  | Inactive => "inactive"
  end.

(** What a status selects: [Inactive] a flag that is [false], [Active] a
    flag that is anything else, [All] everything. *)
Definition status_selects (s : StatusFilter) (flag : jsval) : bool :=
  match s with
  | All => true
  | Active => not_strictly_false flag
  | Inactive => strictly_false flag
  end.

(** The conjunction the specification gives for a machine: the normalized
    query occurs in the name or in the code, and the status selects it. *)
Definition machine_selected `{JSBuiltins} (query : string) (s : StatusFilter)
    (m : Machines.Machine) : bool :=
  (includes (toLowerCase (Machines.name m)) (toLowerCase (trim query))
   || includes (toLowerCase (Machines.code m)) (toLowerCase (trim query)))
  && status_selects s (Machines.isActive m).

(** The same for a product: only the name is searched and there is no
    status selector. *)
Definition product_selected `{JSBuiltins} (query : string)
    (p : Products.Product) : bool :=
  includes (toLowerCase (Products.name p)) (toLowerCase (trim query)).

(** The page with the two filter controls of Machines set. *)
Definition with_filters (query : string) (s : StatusFilter)
    (st : Machines.State) : Machines.State :=
  Machines.set_filter_status (status_value s) (Machines.set_search query st).

(** The badge text as the specification gives it, for the entity noun
    [noun]: the filtered count, [de] and the total when the filter leaves
    fewer entries than the total, else the total alone; the noun takes an
    [s] unless the total is one. *)
Definition spec_badge (noun : string) (filtered total : nat) : string :=
  let suffix :=
    " " +:+ noun +:+ (if (total =? 1)%nat then "" else "s") in
  if (filtered <? total)%nat
  then pretty filtered +:+ " de " +:+ pretty total +:+ suffix
  else pretty total +:+ suffix.

(** The inline errors of the two forms. *)
Definition machines_error_shown (st : Machines.State) : Prop :=
  Machines.error_name (Machines.form st) <> ""
  \/ Machines.error_code (Machines.form st) <> "".

Definition products_error_shown (st : Products.State) : Prop :=
  Products.error_name (Products.form st) <> ""
  \/ Products.error_type (Products.form st) <> ""
  \/ Products.error_price_standard (Products.form st) <> "".

(** Some cached machine other than the edited one carries the value [v],
    compared trimmed and lower-cased, in the field read by [get]; ids are
    compared as strings. *)
Definition taken_by_other `{JSBuiltins} (get : Machines.Machine -> string)
    (v : string) (st : Machines.State) : Prop :=
  exists m : Machines.Machine,
    In m (Machines.allMachines st)
    /\ (forall e, Machines.editingMachine st = Some e ->
          String_ (Machines.id m) <> String_ (Machines.id e))
    /\ toLowerCase (trim (get m)) = toLowerCase (trim v).

(** The same for the products cache and the name in the form. *)
Definition product_name_taken `{JSBuiltins} (st : Products.State) : Prop :=
  exists p : Products.Product,
    In p (Products.allProducts st)
    /\ (forall e, Products.editingProduct st = Some e ->
          String_ (Products.id p) <> String_ (Products.id e))
    /\ toLowerCase (trim (Products.name p))
       = toLowerCase (trim (Products.field_name (Products.form st))).

(** The call [handleToggleStatus] of Machines makes. *)
Definition toggle_call (machineId : string) (currentlyActive : bool)
    : Machines.ApiCall :=
  if currentlyActive then Machines.Deactivate machineId
  else Machines.Activate machineId.

(** ** Escaping *)

(** [escapeHTML(str)], the same function in both modules: the text is
    stored as the [textContent] of a fresh [div] and read back as its
    [innerHTML], which writes [&], [<], [>] and the no-break space as
    character references.  Strings are UTF-8 here, so the no-break space
    is the two bytes 194 160. *)
Fixpoint escapeHTML (s : string) : string :=
  match s with
  | EmptyString => EmptyString
  | String c rest =>
      let n := Ascii.N_of_ascii c in
      if (n =? 38)%N then "&amp;" +:+ escapeHTML rest
      else if (n =? 60)%N then "&lt;" +:+ escapeHTML rest
      else if (n =? 62)%N then "&gt;" +:+ escapeHTML rest
      else if (n =? 194)%N then
        match rest with
        | String d rest' =>
            if (Ascii.N_of_ascii d =? 160)%N
            then "&nbsp;" +:+ escapeHTML rest'
            else String c (escapeHTML rest)
        | EmptyString => String c EmptyString
        end
      else String c (escapeHTML rest)
  end.

(** The bytes of a string. *)
Definition bytes (s : string) : list N :=
  map Ascii.N_of_ascii (String.list_ascii_of_string s).

(** ASCII text without [&], [<] and [>]. *)
Definition plain_text (s : string) : bool :=
  forallb (fun n => (n <? 128)%N && negb (n =? 38)%N && negb (n =? 60)%N
                    && negb (n =? 62)%N) (bytes s).

(** ** app.js *)

Module Router.

(** What a route's loader does: write a placeholder into the container,
    or import the products module and mount it. *)
Inductive Loader :=
  | ShowPlaceholder (name icon subtitle : string)
  | ImportProducts.

Record Route := {
  title : string;
  loader : Loader;
}.

(** The own properties of [ROUTES], in source order. *)
Definition ROUTES : list (string * Route) :=
  [ ("dashboard",
     {| title := "Dashboard — CapFlow";
        loader := ShowPlaceholder "Dashboard" "⊞"
                    "Resumen general del sistema." |});
    ("products",
     {| title := "Productos — CapFlow"; loader := ImportProducts |});
    ("machines",
     {| title := "Máquinas — CapFlow";
        loader := ShowPlaceholder "Máquinas" "⚙"
                    "Módulo de máquinas próximamente." |});
    ("production",
     {| title := "Producción — CapFlow";
        loader := ShowPlaceholder "Producción" "⬡"
                    "Módulo de producción próximamente." |});
    ("clients",
     {| title := "Clientes — CapFlow";
        loader := ShowPlaceholder "Clientes" "◉"
                    "Módulo de clientes próximamente." |});
    ("invoicing",
     {| title := "Facturación — CapFlow";
        loader := ShowPlaceholder "Facturación" "▤"
                    "Módulo de facturación próximamente." |});
    ("payroll",
     {| title := "Nómina — CapFlow";
        loader := ShowPlaceholder "Nómina" "◎"
                    "Módulo de nómina próximamente." |});
    ("investor",
     {| title := "Inversionista — CapFlow";
        loader := ShowPlaceholder "Inversionista" "◇"
                    "Módulo de inversionista próximamente." |}) ].

Definition DEFAULT_ROUTE : string := "dashboard".

(** The property names [ROUTES] inherits from [Object.prototype]; each is
    a function or an object, so it is truthy and has neither [title] nor
    [loader]. *)
Definition inherited_names : list string :=
  [ "constructor"; "hasOwnProperty"; "isPrototypeOf";
    "propertyIsEnumerable"; "toLocaleString"; "toString"; "valueOf";
    "__proto__"; "__defineGetter__"; "__defineSetter__";
    "__lookupGetter__"; "__lookupSetter__" ].

(** What [ROUTES[hash] || ROUTES[DEFAULT_ROUTE]] evaluates to. *)
Inductive Resolved :=
  | Own (r : Route)
  | Inherited.

Fixpoint own_route (key : string) (routes : list (string * Route))
    : option Route :=
  match routes with
  | [] => None
  | (k, r) :: rest => if str_eqb k key then Some r else own_route key rest
  end.

Definition resolve (key : string) : Resolved :=
  match own_route key ROUTES with
  | Some r => Own r
  | None =>
      if existsb (str_eqb key) inherited_names then Inherited
      else match own_route DEFAULT_ROUTE ROUTES with
           | Some r => Own r
           | None => Inherited
           end
  end.

(** Why a loader failed: the dynamic import rejected, or the resolved
    value has no [loader] to call. *)
Inductive Failure :=
  | ImportFailed (message : string)
  | LoaderNotAFunction.

(** The content of [#view-container]. *)
Inductive View :=
  | Spinner
  | Placeholder (name icon subtitle : string)
  | ProductsModule
  | LoadError (why : Failure).

(** A sidebar link with a [data-route]: whether it has the active class,
    and its [aria-current]. *)
Record Link := {
  data_route : string;
  link_active : bool;
  aria_current : string;
}.

(** [container] is [None] when the page has no [#view-container]. *)
Record Page := {
  location_hash : string;
  container : option View;
  document_title : string;
  links : list Link;
}.

(** [s.replace('#', '')]: the first [#] is removed. *)
Fixpoint remove_first_hash (s : string) : string :=
  match s with
  | EmptyString => EmptyString
  | String c rest =>
      if (Ascii.N_of_ascii c =? 35)%N then rest
      else String c (remove_first_hash rest)
  end.

Definition setActiveLink (activeRoute : string) (ls : list Link) : list Link :=
  map (fun link =>
         let isActive := str_eqb (data_route link) activeRoute in
         {| data_route := data_route link;
            link_active := isActive;
            aria_current := if isActive then "page" else "false" |}) ls.

(** The local [hash] of [navigate]. *)
Definition route_key (pg : Page) : string :=
  let h := remove_first_hash (location_hash pg) in
  if truthy h then h else DEFAULT_ROUTE.

(** [navigate()]; [import_products] is what the dynamic import of the
    products module settles to: [None] when it loads, the rejection's
    message otherwise.  Logging to the console is not part of the
    state. *)
Definition navigate (import_products : option string) (pg : Page) : Page :=
  let hash := route_key pg in
  let route := resolve hash in
  match container pg with
  | None => pg
  | Some _ =>
      {| location_hash := location_hash pg;
         container :=
           Some match route with
                | Own r =>
                    match loader r with
                    | ShowPlaceholder name icon subtitle =>
                        Placeholder name icon subtitle
                    | ImportProducts =>
                        match import_products with
                        | None => ProductsModule
                        | Some message => LoadError (ImportFailed message)
                        end
                    end
                | Inherited => LoadError LoaderNotAFunction
                end;
         document_title :=
           match route with
           | Own r => title r
           | Inherited => "undefined"
           end;
         links := setActiveLink hash (links pg) |}
  end.

End Router.

(** ** Mounting and events *)

(** The DOM of Machines right after [container.innerHTML =
    buildModuleHTML()]: the module variables, the page's toast container
    and the calls made so far are what they were. *)
Definition machines_fresh_markup (st : Machines.State) : Machines.State :=
  {| Machines.editingMachine := Machines.editingMachine st;
     Machines.allMachines := Machines.allMachines st;
     Machines.activeFilter := Machines.activeFilter st;
     Machines.form := Machines.form Machines.initial;
     Machines.submit_btn := Machines.submit_btn Machines.initial;
     Machines.search := Machines.search Machines.initial;
     Machines.filter_status := Machines.filter_status Machines.initial;
     Machines.count_badge := Machines.count_badge Machines.initial;
     Machines.table := Machines.table Machines.initial;
     Machines.toasts := Machines.toasts st;
     Machines.calls := Machines.calls st |}.

(** [mountMachines(container)]: markup, listeners, first load. *)
Definition mountMachines `{JSBuiltins} (api : Machines.Backend)
    (st : Machines.State) : Machines.State :=
  Machines.loadMachines api (machines_fresh_markup st).

(** The same for Products; the banner is part of the markup. *)
Definition products_fresh_markup (st : Products.State) : Products.State :=
  {| Products.editingProduct := Products.editingProduct st;
     Products.allProducts := Products.allProducts st;
     Products.form := Products.form Products.initial;
     Products.submit_btn := Products.submit_btn Products.initial;
     Products.search := Products.search Products.initial;
     Products.count_badge := Products.count_badge Products.initial;
     Products.table := Products.table Products.initial;
     Products.banner := Products.banner Products.initial;
     Products.calls := Products.calls st |}.

(** [mountProducts(container)] *)
Definition mountProducts (api : Products.Backend) (st : Products.State)
    : Products.State :=
  Products.loadProducts api (products_fresh_markup st).

(** What the user and the listeners of [attachFormListeners] and
    [renderTable] can do to the Machines page. *)
Inductive MachinesEvent :=
  | FillForm (n c notes active : string)
  | SubmitForm
  | ClickCancel
  | TypeSearch (s : string)
  | PickStatus (s : string)
  | ClickEdit (machineId : string)
  | ClickToggle (machineId : string) (currentlyActive confirmed : bool).

(** The user edits the inputs of the form. *)
Definition machines_fill (n c notes active : string) (st : Machines.State)
    : Machines.State :=
  let f := Machines.form st in
  Machines.set_form
    {| Machines.field_id := Machines.field_id f;
       Machines.field_name := n; Machines.field_code := c;
       Machines.field_notes := notes; Machines.field_active := active;
       Machines.status_group_display := Machines.status_group_display f;
       Machines.error_name := Machines.error_name f;
       Machines.error_code := Machines.error_code f;
       Machines.form_title := Machines.form_title f;
       Machines.cancel_display := Machines.cancel_display f |} st.

(** One event, handled to completion. *)
Definition machines_step `{JSBuiltins} (api : Machines.Backend)
    (ev : MachinesEvent) (st : Machines.State) : Machines.State :=
  match ev with
  | FillForm n c notes active => machines_fill n c notes active st
  | SubmitForm => Machines.handleFormSubmit api st
  | ClickCancel => Machines.resetFormToCreateMode st
  | TypeSearch s => Machines.applyFilters (Machines.set_search s st)
  | PickStatus s => Machines.applyFilters (Machines.set_filter_status s st)
  | ClickEdit machineId => Machines.handleEdit machineId st
  | ClickToggle machineId currentlyActive confirmed =>
      Machines.handleToggleStatus api confirmed machineId currentlyActive st
  end.

(** A sequence of events after the module is mounted for the first
    time. *)
Definition machines_run `{JSBuiltins} (api : Machines.Backend)
    (evs : list MachinesEvent) : Machines.State :=
  fold_left (fun st ev => machines_step api ev st) evs
    (mountMachines api Machines.initial).

(** The call a submit of the Machines form makes. *)
Definition machines_submit_call `{JSBuiltins} (st : Machines.State)
    : Machines.ApiCall :=
  match Machines.editingMachine st with
  | Some e => Machines.Update (Machines.id e) (Machines.collectFormData st)
  | None => Machines.Create (Machines.collectFormData st)
  end.

(** The call a submit of the Products form makes. *)
Definition products_submit_call `{JSBuiltins} (st : Products.State)
    : Products.ApiCall :=
  match Products.editingProduct st with
  | Some e => Products.Update (Products.id e) (Products.collectFormData st)
  | None => Products.Create (Products.collectFormData st)
  end.

(** A create carries no [isActive]; an update carries one. *)
Definition payload_matches_mode (c : Machines.ApiCall) : Prop :=
  match c with
  | Machines.Create data => Machines.p_isActive data = None
  | Machines.Update _ data => Machines.p_isActive data <> None
  | _ => True
  end.

(** The status selector is hidden exactly in create mode. *)
Definition mode_consistent (st : Machines.State) : Prop :=
  Machines.editingMachine st = None
  <-> Machines.status_group_display (Machines.form st) = "none".

(** The user edits the inputs of the Products form. *)
Definition products_fill (n t std inv active : string) (st : Products.State)
    : Products.State :=
  let f := Products.form st in
  Products.set_form
    {| Products.field_id := Products.field_id f;
       Products.field_name := n; Products.field_type := t;
       Products.field_price_standard := std;
       Products.field_price_investor := inv;
       Products.field_active := active;
       Products.error_name := Products.error_name f;
       Products.error_type := Products.error_type f;
       Products.error_price_standard := Products.error_price_standard f;
       Products.form_title := Products.form_title f;
       Products.cancel_display := Products.cancel_display f |} st.

(** The cache after [st'] is the one of [st], or what a fetch-all made
    since [st] answered; the log of [st'] extends the one of [st]. *)
Definition cache_from_fetch (api : Machines.Backend)
    (st st' : Machines.State) : Prop :=
  (Machines.allMachines st' = Machines.allMachines st
   \/ exists h,
        Machines.calls st' = (h ++ [Machines.GetAll])%list
        /\ Machines.calls st `prefix_of` h
        /\ api h Machines.GetAll = Fulfilled (Machines.allMachines st'))
  /\ Machines.calls st `prefix_of` Machines.calls st'
  /\ (length (Machines.calls st') <= length (Machines.calls st) + 2)%nat.

(** ** Concrete pages *)

(** A server that answers every request with [r]. *)
Definition always (r : Api.Response) : string -> Api.Config -> Api.FetchOutcome :=
  fun _ _ => Api.Responded r.

Definition no_options : Api.Options :=
  {| Api.method := None; Api.opt_body := None; Api.opt_headers := None |}.

Definition db_down : Api.Response :=
  {| Api.status := 500; Api.statusText := "Internal Server Error";
     Api.body := Api.Parsed (JObj [("message", JStr "db down")]) |}.

(** A 500 whose [message] is an object with a [toString] property of
    its own. *)
Definition unprintable_message : Api.Response :=
  {| Api.status := 500; Api.statusText := "Internal Server Error";
     Api.body :=
       Api.Parsed
         (JObj [("message", JObj [("toString", JNum (Fin 1))])]) |}.

Definition empty_message : Api.Response :=
  {| Api.status := 500; Api.statusText := "Internal Server Error";
     Api.body := Api.Parsed (JObj [("message", JStr "")]) |}.

Definition m1 : Machines.Machine :=
  {| Machines.id := IdNum 1; Machines.name := "A"; Machines.code := "C1";
     Machines.notes := None; Machines.isActive := VBool true |}.

Definition m2 : Machines.Machine :=
  {| Machines.id := IdNum 2; Machines.name := "B"; Machines.code := "C2";
     Machines.notes := None; Machines.isActive := VBool false |}.

Definition m2_active : Machines.Machine :=
  {| Machines.id := IdNum 2; Machines.name := "B"; Machines.code := "C2";
     Machines.notes := None; Machines.isActive := VBool true |}.

(** A machine whose lifecycle flag is missing and whose id is a string. *)
Definition m3 : Machines.Machine :=
  {| Machines.id := IdStr "3"; Machines.name := "Torno"; Machines.code := "T-1";
     Machines.notes := Some "taller"; Machines.isActive := VUndefined |}.

Definition is_activate_2 (c : Machines.ApiCall) : bool :=
  match c with
  | Machines.Activate target => str_eqb target "2"
  | _ => false
  end.

(** A backend that holds [m1] and [m2] and activates [m2] on request. *)
Definition machines_backend : Machines.Backend :=
  fun history call =>
    match call with
    | Machines.GetAll =>
        Fulfilled (if existsb is_activate_2 history then [m1; m2_active]
                   else [m1; m2])
    | _ => Fulfilled []
    end.

(** A backend that is down. *)
Definition machines_down : Machines.Backend :=
  fun _ _ => RejectedWith "db down".

(** The Machines page after its first load. *)
Definition machines_page : Machines.State :=
  Machines.loadMachines (H := ascii_builtins) machines_backend Machines.initial.

(** The same page with [m2] opened in the edit form. *)
Definition machines_editing_m2 : Machines.State :=
  Machines.handleEdit "2" machines_page.

Definition machines_with_form (n c : string) (st : Machines.State)
    : Machines.State :=
  let f := Machines.form st in
  Machines.set_form
    {| Machines.field_id := Machines.field_id f;
       Machines.field_name := n; Machines.field_code := c;
       Machines.field_notes := Machines.field_notes f;
       Machines.field_active := Machines.field_active f;
       Machines.status_group_display := Machines.status_group_display f;
       Machines.error_name := Machines.error_name f;
       Machines.error_code := Machines.error_code f;
       Machines.form_title := Machines.form_title f;
       Machines.cancel_display := Machines.cancel_display f |} st.

(** A page whose cache holds only [m3]. *)
Definition machines_only_m3 : Machines.State :=
  Machines.set_allMachines [m3] Machines.initial.

Definition p1 : Products.Product :=
  {| Products.id := IdNum 1; Products.name := "Tapa";
     Products.type := "produced";
     Products.priceStandard := Some (Fin 10);
     Products.priceInvestor := None; Products.active := VBool true |}.

Definition p1_inactive : Products.Product :=
  {| Products.id := IdNum 1; Products.name := "Tapa";
     Products.type := "produced";
     Products.priceStandard := Some (Fin 10);
     Products.priceInvestor := None; Products.active := VBool false |}.

Definition p2 : Products.Product :=
  {| Products.id := IdNum 2; Products.name := "Botella";
     Products.type := "resale";
     Products.priceStandard := Some (Fin (25 # 2));
     Products.priceInvestor := Some (Fin 12);
     Products.active := VBool true |}.

Definition is_deactivate_1 (c : Products.ApiCall) : bool :=
  match c with
  | Products.SetStatus target newActive =>
      str_eqb target "1" && negb newActive
  | _ => false
  end.

(** A backend that holds [p1] and [p2] and deactivates [p1] on request. *)
Definition products_backend : Products.Backend :=
  fun history call =>
    match call with
    | Products.GetAll =>
        Fulfilled (if existsb is_deactivate_1 history then [p1_inactive; p2]
                   else [p1; p2])
    | _ => Fulfilled []
    end.

Definition products_down : Products.Backend :=
  fun _ _ => RejectedWith "db down".

(** The Products page after its first load. *)
Definition products_page : Products.State :=
  Products.loadProducts products_backend Products.initial.

(** The same page with [p1] opened in the edit form. *)
Definition products_editing_p1 : Products.State :=
  Products.handleEdit (H := ascii_builtins) "1" products_page.

Definition products_with_form (n t std inv : string) (st : Products.State)
    : Products.State :=
  let f := Products.form st in
  Products.set_form
    {| Products.field_id := Products.field_id f;
       Products.field_name := n; Products.field_type := t;
       Products.field_price_standard := std;
       Products.field_price_investor := inv;
       Products.field_active := Products.field_active f;
       Products.error_name := Products.error_name f;
       Products.error_type := Products.error_type f;
       Products.error_price_standard := Products.error_price_standard f;
       Products.form_title := Products.form_title f;
       Products.cancel_display := Products.cancel_display f |} st.

Definition line_feed : string := String (Ascii.ascii_of_N 10) EmptyString.

Definition carriage_return : string :=
  String (Ascii.ascii_of_N 13) EmptyString.

(** A machine whose name and notes hold line breaks. *)
Definition m_lines : Machines.Machine :=
  {| Machines.id := IdStr "L1";
     Machines.name := "Tor" +:+ line_feed +:+ "no";
     Machines.code := "T-" +:+ carriage_return +:+ line_feed +:+ "9";
     Machines.notes :=
       Some ("fila 1" +:+ carriage_return +:+ line_feed +:+ "fila 2"
             +:+ carriage_return +:+ "fila 3");
     Machines.isActive := VNull |}.

Definition machines_with_lines : Machines.State :=
  Machines.set_allMachines [m1; m_lines] Machines.initial.

(** A product whose name holds a line break. *)
Definition p_lines : Products.Product :=
  {| Products.id := IdNum 7;
     Products.name := "Tapa" +:+ carriage_return +:+ line_feed +:+ " roja";
     Products.type := "granel";
     Products.priceStandard := Some (Fin 3);
     Products.priceInvestor := None; Products.active := VBool false |}.

Definition products_with_lines : Products.State :=
  Products.set_allProducts [p1; p_lines] Products.initial.

Definition ok_empty_list : Api.Response :=
  {| Api.status := 200; Api.statusText := "OK";
     Api.body := Api.Parsed (JArr []) |}.

Definition sidebar : list Router.Link :=
  [ {| Router.data_route := "dashboard"; Router.link_active := true;
       Router.aria_current := "page" |};
    {| Router.data_route := "products"; Router.link_active := false;
       Router.aria_current := "false" |} ].

Definition page_at (hash : string) : Router.Page :=
  {| Router.location_hash := hash; Router.container := Some Router.Spinner;
     Router.document_title := "CapFlow"; Router.links := sidebar |}.

Definition page_without_container : Router.Page :=
  {| Router.location_hash := "#products"; Router.container := None;
     Router.document_title := "CapFlow"; Router.links := sidebar |}.

(** A product that is given away. *)
Definition p_free : Products.Product :=
  {| Products.id := IdStr "f7"; Products.name := "Muestra";
     Products.type := "resale";
     Products.priceStandard := Some (Fin 0);
     Products.priceInvestor := None; Products.active := VUndefined |}.

Definition products_free_page : Products.State :=
  Products.set_allProducts [p1; p_free] Products.initial.

(** ** The request wrapper *)

Section Request_facts.
Context `{JSBuiltins}.

Lemma error_message_cases (r : Api.Response) :
  Api.error_message r =
    match body_message r with
    | Some v =>
        if Api.json_truthy v then Api.json_toString v
        else Some (generic_message r)
    | None => Some (generic_message r)
    end.
Proof.
  unfold Api.error_message, body_message, generic_message.
  destruct (Api.body r) as [j|msg]; [|reflexivity].
  destruct j; try reflexivity.
Qed.

Lemma status_204_ok (r : Api.Response) :
  Api.status r = 204%Z -> Api.ok r = true.
Proof. unfold Api.ok. intros ->. reflexivity. Qed.

(** C8, as amended: a response that is not 2xx rejects with the body's
    [message] when the body is a JSON object whose [message] is a
    non-empty string, and with the generic [Error status: statusText]
    when the body is not JSON, has no [message], or has a falsy
    [message].  A truthy [message] that is not a string is handed to
    [new Error], which gives its string form when it has one and raises
    a TypeError when it has none, as for an object with an own
    [toString] property.  A 204 response resolves to [null] whatever its
    body. *)
Theorem request_response_handling
    (fetch : string -> Api.Config -> Api.FetchOutcome)
    (endpoint : string) (options : Api.Options) (r : Api.Response) :
  fetch (Api.API_BASE +:+ endpoint) (Api.build_config options)
    = Api.Responded r ->
  (Api.ok r = false ->
     (forall s, body_message r = Some (JStr s) -> s <> "" ->
        Api.request fetch endpoint options = Api.Rejected s)
     /\ (forall v s, body_message r = Some v -> Api.json_truthy v = true ->
        Api.json_toString v = Some s ->
        Api.request fetch endpoint options = Api.Rejected s)
     /\ (forall v, body_message r = Some v -> Api.json_truthy v = true ->
        Api.json_toString v = None ->
        Api.request fetch endpoint options = Api.RejectedTypeError)
     /\ (forall props own, body_message r = Some (JObj props) ->
        Api.get_prop "toString" props = Some own ->
        Api.request fetch endpoint options = Api.RejectedTypeError)
     /\ (forall v, body_message r = Some v -> Api.json_truthy v = false ->
        Api.request fetch endpoint options
          = Api.Rejected (generic_message r))
     /\ (body_message r = None ->
        Api.request fetch endpoint options
          = Api.Rejected (generic_message r)))
  /\ (Api.status r = 204%Z ->
        Api.request fetch endpoint options = Api.Resolved JNull).
Proof.
  intros Hfetch. unfold Api.request. rewrite Hfetch. split.
  - intros Hok. rewrite Hok. simpl. rewrite error_message_cases.
    repeat split.
    + intros s -> Hs. destruct s; [congruence | reflexivity].
    + intros v s -> -> ->. reflexivity.
    + intros v -> -> ->. reflexivity.
    + intros props own -> Hown. simpl. rewrite Hown. reflexivity.
    + intros v -> ->. reflexivity.
    + intros ->. reflexivity.
  - intros H204. rewrite (status_204_ok r H204). simpl.
    rewrite H204. reflexivity.
Qed.

End Request_facts.

(** ** Filtering *)

Section List_facts.
Context {A : Type}.

Lemma filter_twice (f g : A -> bool) (l : list A) :
  List.filter g (List.filter f l) = List.filter (fun x => f x && g x) l.
Proof.
  induction l as [|x l IH]; simpl; [reflexivity|].
  destruct (f x); simpl; [destruct (g x)|]; rewrite IH; reflexivity.
Qed.

Lemma filter_all (f : A -> bool) (l : list A) :
  (forall x, f x = true) -> List.filter f l = l.
Proof.
  intros Hf. induction l as [|x l IH]; simpl; [reflexivity|].
  rewrite Hf, IH. reflexivity.
Qed.

Lemma filter_is_sublist (f : A -> bool) (l : list A) :
  List.filter f l `sublist_of` l.
Proof.
  induction l as [|x l IH]; simpl; [constructor|].
  destruct (f x); [apply sublist_skip | apply sublist_cons]; exact IH.
Qed.

Lemma filter_length_bound (f : A -> bool) (l : list A) :
  (length (List.filter f l) <= length l)%nat.
Proof. apply sublist_length, filter_is_sublist. Qed.

Lemma table_render_twice (rows : list A) (t : Table A) :
  table_render rows (table_render rows t) = table_render rows t.
Proof. destruct rows; reflexivity. Qed.

End List_facts.

Lemma includes_empty (s : string) : includes s "" = true.
Proof. destruct s; reflexivity. Qed.

Lemma truthy_false (s : string) : truthy s = false -> s = "".
Proof. destruct s; [reflexivity | discriminate]. Qed.

Section Filter_facts.
Context `{JSBuiltins}.

Lemma machines_results_sublist (st : Machines.State) :
  Machines.filter_results st `sublist_of` Machines.allMachines st.
Proof.
  unfold Machines.filter_results.
  set (l := if truthy _ then _ else _).
  assert (Hl : l `sublist_of` Machines.allMachines st).
  { subst l. destruct (truthy _); [apply filter_is_sublist | reflexivity]. }
  destruct (str_eqb _ "active");
    [|destruct (str_eqb _ "inactive")];
    try (etrans; [apply filter_is_sublist | exact Hl]); exact Hl.
Qed.

Lemma products_results_sublist (st : Products.State) :
  Products.search_results st `sublist_of` Products.allProducts st.
Proof.
  unfold Products.search_results.
  destruct (truthy _); [apply filter_is_sublist | reflexivity].
Qed.

Lemma machines_results_exact (query : string) (s : StatusFilter)
    (st : Machines.State) :
  Machines.filter_results (with_filters query s st)
  = List.filter (machine_selected query s) (Machines.allMachines st).
Proof.
  unfold Machines.filter_results, Machines.filter_query,
    Machines.filter_status_value, machine_selected; simpl.
  set (q := toLowerCase (trim query)).
  assert (Htext :
    (if truthy q
     then List.filter (Machines.matches_query q) (Machines.allMachines st)
     else Machines.allMachines st)
    = List.filter (Machines.matches_query q) (Machines.allMachines st)).
  { destruct (truthy q) eqn:Hq; [reflexivity|].
    apply truthy_false in Hq. rewrite Hq. symmetry. apply filter_all.
    intros m. unfold Machines.matches_query.
    rewrite includes_empty. reflexivity. }
  destruct s; simpl; rewrite Htext; unfold Machines.matches_query.
  - apply List.filter_ext. intros m. rewrite andb_true_r. reflexivity.
  - apply filter_twice.
  - apply filter_twice.
Qed.

Lemma products_results_exact (st : Products.State) :
  Products.search_results st
  = List.filter (product_selected (Products.search st))
      (Products.allProducts st).
Proof.
  unfold Products.search_results, product_selected.
  destruct (truthy _) eqn:Hq; [reflexivity|].
  apply truthy_false in Hq. rewrite Hq. symmetry. apply filter_all.
  intros p. apply includes_empty.
Qed.

(** C4: for every cache, query and status, the filter output is exactly
    the cache entries, in cache order, for which the normalized query is a
    substring of the lower-cased name (Machines: name or code) and the
    status selects the flag; a missing flag passes the active filter.
    This is the list both coordinators hand to [renderTable]. *)
Theorem filter_output_exact :
  (forall (query : string) (s : StatusFilter) (st : Machines.State),
     Machines.filter_results (with_filters query s st)
     = List.filter (machine_selected query s) (Machines.allMachines st)
     /\ Machines.table (Machines.applyFilters (with_filters query s st))
        = table_render (Machines.filter_results (with_filters query s st))
            (Machines.table st))
  /\ (forall (query : string) (st : Products.State),
     Products.search_results (Products.set_search query st)
     = List.filter (product_selected query) (Products.allProducts st)
     /\ Products.table (Products.handleSearch (Products.set_search query st))
        = table_render (Products.search_results (Products.set_search query st))
            (Products.table st))
  /\ (forall (query : string) (st : Machines.State) (m : Machines.Machine),
     In m (Machines.allMachines st) ->
     Machines.isActive m = VUndefined ->
     Machines.matches_query (toLowerCase (trim query)) m = true ->
     In m (Machines.filter_results (with_filters query Active st))).
Proof.
  split; [|split].
  - intros query s st. split; [apply machines_results_exact|].
    unfold Machines.applyFilters, Machines.updateCountBadge.
    repeat match goal with
    | |- context [match ?x with _ => _ end] => destruct x
    end; reflexivity.
  - intros query st. split; [|reflexivity].
    rewrite products_results_exact. reflexivity.
  - intros query st m Hin Hflag Htext.
    rewrite machines_results_exact. apply List.filter_In.
    split; [exact Hin|].
    unfold machine_selected, Machines.matches_query in *.
    rewrite Htext, Hflag. reflexivity.
Qed.

Lemma machines_unfiltered (st : Machines.State) :
  truthy (Machines.filter_query st)
  || negb (str_eqb (Machines.filter_status_value st) "all") = false ->
  Machines.filter_results st = Machines.allMachines st.
Proof.
  intros Hf. apply orb_false_elim in Hf as [Hq Hs].
  apply negb_false_iff in Hs. unfold str_eqb in Hs.
  apply bool_decide_eq_true_1 in Hs.
  unfold Machines.filter_results. rewrite Hq, Hs. reflexivity.
Qed.

Lemma noun_suffix (total : nat) :
  Machines.noun total
  = " " +:+ "máquina" +:+ (if (total =? 1)%nat then "" else "s").
Proof.
  unfold Machines.noun. destruct (Nat.eqb_spec total 1) as [->|Hne].
  - reflexivity.
  - rewrite bool_decide_eq_true_2 by exact Hne. reflexivity.
Qed.

Lemma machines_badge_update (st st' : Machines.State) (isFiltered : bool) :
  (isFiltered = false ->
   Machines.filter_results st = Machines.allMachines st) ->
  Machines.updateCountBadge (length (Machines.allMachines st))
    (if isFiltered then Some (length (Machines.filter_results st)) else None)
    st'
  = Machines.set_count_badge
      (spec_badge "máquina" (length (Machines.filter_results st))
         (length (Machines.allMachines st))) st'.
Proof.
  intros Hall. unfold Machines.updateCountBadge, spec_badge.
  rewrite noun_suffix.
  pose proof (sublist_length _ _ (machines_results_sublist st)) as Hle.
  destruct isFiltered.
  - destruct (decide (length (Machines.filter_results st)
                      ≠ length (Machines.allMachines st))) as [Hne|Heq].
    + rewrite bool_decide_eq_true_2 by exact Hne.
      destruct (Nat.ltb_spec (length (Machines.filter_results st))
                  (length (Machines.allMachines st))); [reflexivity | lia].
    + rewrite bool_decide_eq_false_2 by exact Heq.
      destruct (Nat.ltb_spec (length (Machines.filter_results st))
                  (length (Machines.allMachines st))); [lia | reflexivity].
  - rewrite (Hall eq_refl), Nat.ltb_irrefl. reflexivity.
Qed.

(** [applyFilters] as three writes: the remembered status, the badge and
    the table. *)
Lemma applyFilters_shape (st : Machines.State) :
  Machines.applyFilters st
  = Machines.set_table
      (table_render (Machines.filter_results st) (Machines.table st))
      (Machines.set_count_badge
         (spec_badge "máquina" (length (Machines.filter_results st))
            (length (Machines.allMachines st)))
         (Machines.set_activeFilter (Machines.filter_status_value st) st)).
Proof.
  unfold Machines.applyFilters, Machines.renderTable.
  change (Machines.allMachines
            (Machines.set_activeFilter (Machines.filter_status_value st) st))
    with (Machines.allMachines st).
  rewrite machines_badge_update by apply machines_unfiltered.
  reflexivity.
Qed.

(** C5: the filter output depends on the cache, the query and the status
    only; recomputing with unchanged inputs gives the same output and
    leaves the page as the first run left it; the output is a subsequence
    of the cache in cache order.  The same holds for the search of
    Products. *)
Theorem filter_idempotent_order_preserving :
  (forall st1 st2 : Machines.State,
     Machines.allMachines st1 = Machines.allMachines st2 ->
     Machines.search st1 = Machines.search st2 ->
     Machines.filter_status st1 = Machines.filter_status st2 ->
     Machines.filter_results st1 = Machines.filter_results st2)
  /\ (forall st : Machines.State,
     Machines.filter_results (Machines.applyFilters st)
       = Machines.filter_results st
     /\ Machines.applyFilters (Machines.applyFilters st)
       = Machines.applyFilters st
     /\ Machines.filter_results st `sublist_of` Machines.allMachines st)
  /\ (forall st1 st2 : Products.State,
     Products.allProducts st1 = Products.allProducts st2 ->
     Products.search st1 = Products.search st2 ->
     Products.search_results st1 = Products.search_results st2)
  /\ (forall st : Products.State,
     Products.search_results (Products.handleSearch st)
       = Products.search_results st
     /\ Products.handleSearch (Products.handleSearch st)
       = Products.handleSearch st
     /\ Products.search_results st `sublist_of` Products.allProducts st).
Proof.
  split; [|split; [|split]].
  - intros st1 st2 Hcache Hquery Hstatus.
    unfold Machines.filter_results, Machines.filter_query,
      Machines.filter_status_value.
    rewrite Hcache, Hquery, Hstatus. reflexivity.
  - intros st. split; [|split].
    + rewrite applyFilters_shape. reflexivity.
    + rewrite (applyFilters_shape (Machines.applyFilters st)).
      rewrite !applyFilters_shape.
      unfold Machines.set_table, Machines.set_count_badge,
        Machines.set_activeFilter; simpl.
      change (Machines.filter_results _) with (Machines.filter_results st).
      rewrite table_render_twice. reflexivity.
    + apply machines_results_sublist.
  - intros st1 st2 Hcache Hquery. unfold Products.search_results.
    rewrite Hcache, Hquery. reflexivity.
  - intros st. split; [|split].
    + reflexivity.
    + unfold Products.handleSearch, Products.renderTable,
        Products.set_table; simpl.
      change (Products.search_results _) with (Products.search_results st).
      rewrite table_render_twice. reflexivity.
    + apply products_results_sublist.
Qed.

End Filter_facts.

(** ** Badge, loading and submitting *)

Section Handler_facts.
Context `{JSBuiltins}.

Lemma products_badge_text (count : nat) (st : Products.State) :
  Products.count_badge (Products.updateCountBadge count st)
  = spec_badge "producto" count count.
Proof.
  unfold Products.updateCountBadge, spec_badge; simpl.
  rewrite Nat.ltb_irrefl.
  destruct (Nat.eqb_spec count 1) as [->|Hne]; [reflexivity|].
  rewrite bool_decide_eq_true_2 by exact Hne. reflexivity.
Qed.

(** C3, as amended: after a filter recomputation in Machines the badge
    reads filtered, [de], total and the noun when the filters leave fewer
    machines than the total, and the total and the noun otherwise, the noun
    in the plural unless the total is one.  In Products the badge is
    written by a load only, as the total and the noun; a search leaves it
    as it was. *)
Theorem count_badge_after_filtering :
  (forall st : Machines.State,
     Machines.count_badge (Machines.applyFilters st)
     = spec_badge "máquina" (length (Machines.filter_results st))
         (length (Machines.allMachines st)))
  /\ (forall st : Products.State,
     Products.count_badge (Products.handleSearch st)
     = Products.count_badge st)
  /\ (forall (api : Products.Backend) (st : Products.State)
        (products : list Products.Product),
     api (Products.calls st) Products.GetAll = Fulfilled products ->
     Products.count_badge (Products.loadProducts api st)
     = spec_badge "producto" (length products) (length products)).
Proof.
  split; [|split].
  - intros st. rewrite applyFilters_shape. reflexivity.
  - intros st. reflexivity.
  - intros api st products Hget. unfold Products.loadProducts, Products.await.
    change (Products.calls (Products.showTableLoading true st))
      with (Products.calls st).
    rewrite Hget. apply products_badge_text.
Qed.

(** C6: when the fetch-all of a load rejects, the cache is the list it
    was, the table rows are the rows they were, and the error is shown: a
    toast in Machines, the banner in Products, with the rejection's
    message. *)
Theorem load_failure_keeps_cache :
  (forall (api : Machines.Backend) (st : Machines.State) (message : string),
     api (Machines.calls st) Machines.GetAll = RejectedWith message ->
     Machines.allMachines (Machines.loadMachines api st)
       = Machines.allMachines st
     /\ tbody (Machines.table (Machines.loadMachines api st))
       = tbody (Machines.table st)
     /\ Machines.toasts (Machines.loadMachines api st)
       = (Machines.toasts st
          ++ [{| Machines.toast_message :=
                   "Error al cargar máquinas: " +:+ message;
                 Machines.toast_type := "error" |}])%list
     /\ Machines.calls (Machines.loadMachines api st)
       = (Machines.calls st ++ [Machines.GetAll])%list)
  /\ (forall (api : Products.Backend) (st : Products.State) (message : string),
     api (Products.calls st) Products.GetAll = RejectedWith message ->
     Products.allProducts (Products.loadProducts api st)
       = Products.allProducts st
     /\ tbody (Products.table (Products.loadProducts api st))
       = tbody (Products.table st)
     /\ Products.banner (Products.loadProducts api st)
       = Some {| Products.banner_text :=
                   "Error al cargar productos: " +:+ message;
                 Products.banner_type := "error" |}
     /\ Products.calls (Products.loadProducts api st)
       = (Products.calls st ++ [Products.GetAll])%list).
Proof.
  split.
  - intros api st message Hget. unfold Machines.loadMachines, Machines.await.
    change (Machines.calls (Machines.showTableLoading true st))
      with (Machines.calls st).
    rewrite Hget. repeat split.
  - intros api st message Hget. unfold Products.loadProducts, Products.await.
    change (Products.calls (Products.showTableLoading true st))
      with (Products.calls st).
    rewrite Hget. repeat split.
Qed.

Lemma machines_validate_keeps (st : Machines.State) :
  Machines.calls (snd (Machines.validateForm st)) = Machines.calls st
  /\ Machines.allMachines (snd (Machines.validateForm st))
     = Machines.allMachines st
  /\ Machines.editingMachine (snd (Machines.validateForm st))
     = Machines.editingMachine st.
Proof.
  unfold Machines.validateForm.
  repeat match goal with
  | |- context [if ?c then _ else _] => destruct c
  end; repeat split.
Qed.

Lemma products_validate_keeps (st : Products.State) :
  Products.calls (snd (Products.validateForm st)) = Products.calls st
  /\ Products.allProducts (snd (Products.validateForm st))
     = Products.allProducts st
  /\ Products.editingProduct (snd (Products.validateForm st))
     = Products.editingProduct st.
Proof.
  unfold Products.validateForm.
  repeat match goal with
  | |- context [if ?c then _ else _] => destruct c
  end; repeat split.
Qed.

Lemma machines_invalid_shows_error (st : Machines.State) :
  fst (Machines.validateForm st) = false ->
  machines_error_shown (snd (Machines.validateForm st)).
Proof.
  unfold Machines.validateForm, machines_error_shown.
  repeat match goal with
  | |- context [if ?c then _ else _] => destruct c
  end; simpl; intros Hv; try discriminate Hv;
    try (left; discriminate); right; discriminate.
Qed.

Lemma products_invalid_shows_error (st : Products.State) :
  fst (Products.validateForm st) = false ->
  products_error_shown (snd (Products.validateForm st)).
Proof.
  unfold Products.validateForm, products_error_shown.
  repeat match goal with
  | |- context [if ?c then _ else _] => destruct c
  end; simpl; intros Hv; try discriminate Hv;
    try (left; discriminate); try (right; left; discriminate);
    right; right; discriminate.
Qed.

Lemma machines_invalid_returns (api : Machines.Backend) (st : Machines.State) :
  fst (Machines.validateForm st) = false ->
  Machines.handleFormSubmit api st = snd (Machines.validateForm st).
Proof.
  unfold Machines.handleFormSubmit.
  destruct (Machines.validateForm st) as [valid st']; simpl.
  intros ->. reflexivity.
Qed.

Lemma products_invalid_returns (api : Products.Backend) (st : Products.State) :
  fst (Products.validateForm st) = false ->
  Products.handleFormSubmit api st = snd (Products.validateForm st).
Proof.
  unfold Products.handleFormSubmit.
  destruct (Products.validateForm st) as [valid st']; simpl.
  intros ->. reflexivity.
Qed.

(** C7: in both modules a submission that fails validation makes no API
    call and leaves the cache as it was, and an inline error is shown
    under a field; a form whose trimmed name is empty fails validation
    with the required-name message under the name field. *)
Theorem invalid_submit_makes_no_call :
  (forall (api : Machines.Backend) (st : Machines.State),
     fst (Machines.validateForm st) = false ->
     Machines.calls (Machines.handleFormSubmit api st) = Machines.calls st
     /\ Machines.allMachines (Machines.handleFormSubmit api st)
        = Machines.allMachines st
     /\ machines_error_shown (Machines.handleFormSubmit api st))
  /\ (forall (api : Machines.Backend) (st : Machines.State),
     trim (Machines.field_name (Machines.form st)) = "" ->
     fst (Machines.validateForm st) = false
     /\ Machines.error_name (Machines.form (Machines.handleFormSubmit api st))
        = "El nombre de la máquina es obligatorio.")
  /\ (forall (api : Products.Backend) (st : Products.State),
     fst (Products.validateForm st) = false ->
     Products.calls (Products.handleFormSubmit api st) = Products.calls st
     /\ Products.allProducts (Products.handleFormSubmit api st)
        = Products.allProducts st
     /\ products_error_shown (Products.handleFormSubmit api st))
  /\ (forall (api : Products.Backend) (st : Products.State),
     trim (Products.field_name (Products.form st)) = "" ->
     fst (Products.validateForm st) = false
     /\ Products.error_name (Products.form (Products.handleFormSubmit api st))
        = "El nombre del producto es obligatorio.").
Proof.
  split; [|split; [|split]].
  - intros api st Hv. rewrite (machines_invalid_returns api st Hv).
    destruct (machines_validate_keeps st) as (Hc & Ha & _).
    auto using machines_invalid_shows_error.
  - intros api st Hname.
    assert (Hv : fst (Machines.validateForm st) = false).
    { unfold Machines.validateForm; simpl. rewrite Hname; simpl.
      repeat match goal with
      | |- context [if ?c then _ else _] => destruct c
      end; reflexivity. }
    split; [exact Hv|]. rewrite (machines_invalid_returns api st Hv).
    unfold Machines.validateForm; simpl. rewrite Hname; simpl.
    repeat match goal with
    | |- context [if ?c then _ else _] => destruct c
    end; reflexivity.
  - intros api st Hv. rewrite (products_invalid_returns api st Hv).
    destruct (products_validate_keeps st) as (Hc & Ha & _).
    auto using products_invalid_shows_error.
  - intros api st Hname.
    assert (Hv : fst (Products.validateForm st) = false).
    { unfold Products.validateForm; simpl. rewrite Hname; simpl.
      repeat match goal with
      | |- context [if ?c then _ else _] => destruct c
      end; reflexivity. }
    split; [exact Hv|]. rewrite (products_invalid_returns api st Hv).
    unfold Products.validateForm; simpl. rewrite Hname; simpl.
    repeat match goal with
    | |- context [if ?c then _ else _] => destruct c
    end; reflexivity.
Qed.

End Handler_facts.

(** ** Uniqueness *)

Section Uniqueness_facts.
Context `{JSBuiltins}.

Lemma str_eqb_true (s t : string) : str_eqb s t = true <-> s = t.
Proof. unfold str_eqb. apply bool_decide_eq_true. Qed.

Lemma str_eqb_false (s t : string) : str_eqb s t = false <-> s <> t.
Proof. unfold str_eqb. apply bool_decide_eq_false. Qed.

Lemma is_duplicate_of_true (get : Machines.Machine -> string)
    (normalized : string) (st : Machines.State) (m : Machines.Machine) :
  Machines.is_duplicate_of get normalized st m = true
  <-> (forall e, Machines.editingMachine st = Some e ->
         String_ (Machines.id m) <> String_ (Machines.id e))
      /\ toLowerCase (trim (get m)) = normalized.
Proof.
  unfold Machines.is_duplicate_of, Machines.same_id.
  destruct (Machines.editingMachine st) as [e|].
  - destruct (str_eqb _ (String_ (Machines.id e))) eqn:Hid.
    + apply str_eqb_true in Hid. split; [discriminate|].
      intros [Hne _]. destruct (Hne e eq_refl Hid).
    + apply str_eqb_false in Hid. rewrite str_eqb_true. split.
      * intros Hn. split; [|exact Hn]. intros e' [= <-]. exact Hid.
      * intros [_ Hn]. exact Hn.
  - rewrite str_eqb_true. split.
    + intros Hn. split; [discriminate | exact Hn].
    + intros [_ Hn]. exact Hn.
Qed.

Lemma duplicate_scan (get : Machines.Machine -> string) (v : string)
    (st : Machines.State) :
  existsb (Machines.is_duplicate_of get (toLowerCase (trim v)) st)
    (Machines.allMachines st) = true
  <-> taken_by_other get v st.
Proof.
  rewrite List.existsb_exists. unfold taken_by_other.
  split; intros (m & Hin & Hm); exists m.
  - apply is_duplicate_of_true in Hm as [Hne Hn]. auto.
  - split; [exact Hin|]. apply is_duplicate_of_true. exact Hm.
Qed.

Lemma isNameDuplicate_spec (v : string) (st : Machines.State) :
  Machines.isNameDuplicate v st = true
  <-> taken_by_other Machines.name v st.
Proof. apply duplicate_scan. Qed.

Lemma isCodeDuplicate_spec (v : string) (st : Machines.State) :
  Machines.isCodeDuplicate v st = true
  <-> taken_by_other Machines.code v st.
Proof. apply duplicate_scan. Qed.

Lemma taken_by_other_differs (get : Machines.Machine -> string) (v : string)
    (st : Machines.State) (X : Machines.Machine) :
  Machines.editingMachine st = Some X ->
  taken_by_other get v st ->
  exists m, In m (Machines.allMachines st)
    /\ Machines.id m <> Machines.id X
    /\ toLowerCase (trim (get m)) = toLowerCase (trim v).
Proof.
  intros Hedit (m & Hin & Hne & Hn). exists m.
  split; [exact Hin|]. split; [|exact Hn].
  intros Heq. apply (Hne X Hedit). rewrite Heq. reflexivity.
Qed.

Lemma alone_not_taken (get : Machines.Machine -> string)
    (st : Machines.State) (X : Machines.Machine) :
  Machines.editingMachine st = Some X ->
  (forall m, In m (Machines.allMachines st) ->
     String_ (Machines.id m) <> String_ (Machines.id X) ->
     toLowerCase (trim (get m)) <> toLowerCase (trim (get X))) ->
  ~ taken_by_other get (get X) st.
Proof.
  intros Hedit Hothers (m & Hin & Hne & Hn).
  exact (Hothers m Hin (Hne X Hedit) Hn).
Qed.

(** C9: while machine [X] is being edited, the duplicate checks skip
    every cached machine whose id, as a string, is that of [X]; so
    checking [X]'s own name or code reports no duplicate unless another
    machine carries it, and whenever a duplicate is reported there is a
    cached machine with a different id and the same trimmed, lower-cased
    name or code. *)
Theorem duplicate_checks_exclude_edited
    (st : Machines.State) (X : Machines.Machine) :
  Machines.editingMachine st = Some X ->
  (forall (v : string) (m : Machines.Machine),
     String_ (Machines.id m) = String_ (Machines.id X) ->
     Machines.is_duplicate_of Machines.name (toLowerCase (trim v)) st m = false
     /\ Machines.is_duplicate_of Machines.code (toLowerCase (trim v)) st m
        = false)
  /\ ((forall m, In m (Machines.allMachines st) ->
         String_ (Machines.id m) <> String_ (Machines.id X) ->
         toLowerCase (trim (Machines.name m))
         <> toLowerCase (trim (Machines.name X))) ->
      Machines.isNameDuplicate (Machines.name X) st = false)
  /\ ((forall m, In m (Machines.allMachines st) ->
         String_ (Machines.id m) <> String_ (Machines.id X) ->
         toLowerCase (trim (Machines.code m))
         <> toLowerCase (trim (Machines.code X))) ->
      Machines.isCodeDuplicate (Machines.code X) st = false)
  /\ (forall v : string,
      Machines.isNameDuplicate v st = true ->
      exists m, In m (Machines.allMachines st)
        /\ Machines.id m <> Machines.id X
        /\ toLowerCase (trim (Machines.name m)) = toLowerCase (trim v))
  /\ (forall v : string,
      Machines.isCodeDuplicate v st = true ->
      exists m, In m (Machines.allMachines st)
        /\ Machines.id m <> Machines.id X
        /\ toLowerCase (trim (Machines.code m)) = toLowerCase (trim v)).
Proof.
  intros Hedit. split; [|split; [|split; [|split]]].
  - intros v m Hid. unfold Machines.is_duplicate_of, Machines.same_id.
    rewrite Hedit.
    rewrite (proj2 (str_eqb_true _ _) Hid). split; reflexivity.
  - intros Hothers. apply not_true_is_false.
    rewrite isNameDuplicate_spec. apply alone_not_taken; assumption.
  - intros Hothers. apply not_true_is_false.
    rewrite isCodeDuplicate_spec. apply alone_not_taken; assumption.
  - intros v Hdup. apply isNameDuplicate_spec in Hdup.
    apply (taken_by_other_differs _ _ _ _ Hedit Hdup).
  - intros v Hdup. apply isCodeDuplicate_spec in Hdup.
    apply (taken_by_other_differs _ _ _ _ Hedit Hdup).
Qed.

Lemma machines_valid_iff (st : Machines.State) :
  fst (Machines.validateForm st) = true
  <-> trim (Machines.field_name (Machines.form st)) <> ""
      /\ Machines.isNameDuplicate
           (trim (Machines.field_name (Machines.form st))) st = false
      /\ trim (Machines.field_code (Machines.form st)) <> ""
      /\ Machines.isCodeDuplicate
           (trim (Machines.field_code (Machines.form st))) st = false.
Proof.
  unfold Machines.validateForm; simpl.
  change (Machines.isNameDuplicate ?v (Machines.clearFormErrors st))
    with (Machines.isNameDuplicate v st).
  destruct (trim (Machines.field_name (Machines.form st))) as [|a n];
    simpl.
  { split; [|intros [Hn _]; congruence].
    repeat match goal with
    | |- context [if ?c then _ else _] => destruct c
    end; discriminate. }
  destruct (Machines.isNameDuplicate (String a n) st) eqn:Hname; simpl.
  { split; [|intros (_ & Hd & _); discriminate].
    repeat match goal with
    | |- context [if ?c then _ else _] => destruct c
    end; discriminate. }
  destruct (trim (Machines.field_code (Machines.form st))) as [|b c];
    simpl.
  { split; [discriminate | intros (_ & _ & Hc & _); congruence]. }
  match goal with
  | |- context [if ?c then _ else _] => destruct c eqn:Hcode
  end; simpl.
  - split; [discriminate|]. intros (_ & _ & _ & Hd).
    change (Machines.isCodeDuplicate (String b c) st = true) in Hcode.
    congruence.
  - split; [|reflexivity]. intros _. repeat split; try discriminate.
    exact Hcode.
Qed.

Lemma products_valid_iff (st : Products.State) :
  fst (Products.validateForm st) = true
  <-> trim (Products.field_name (Products.form st)) <> ""
      /\ Products.field_type (Products.form st) <> ""
      /\ Products.field_price_standard (Products.form st) <> ""
      /\ number_lt0
           (Number_ (Products.field_price_standard (Products.form st)))
         = false.
Proof.
  unfold Products.validateForm; simpl.
  destruct (trim (Products.field_name (Products.form st))); simpl;
    destruct (Products.field_type (Products.form st)); simpl;
    destruct (Products.field_price_standard (Products.form st)); simpl;
    try destruct (number_lt0 _); simpl;
    split; try discriminate; try tauto;
    try (intros (Ha & Hb & Hc & Hd); congruence);
    intros _; repeat split; discriminate.
Qed.

(** C1, as amended: in Machines the validation that runs before any
    submit passes exactly when the trimmed name and code are not empty and
    neither is carried, trimmed and lower-cased, by a cached machine other
    than the one being edited; a Machines submission whose name or code is
    so taken makes no API call.  In Products the validation checks the
    required fields only (name, type, a standard price that is not
    negative) and does not look at the cache. *)
Theorem validation_uniqueness :
  (forall st : Machines.State,
     fst (Machines.validateForm st) = true
     <-> trim (Machines.field_name (Machines.form st)) <> ""
         /\ ~ taken_by_other Machines.name
               (trim (Machines.field_name (Machines.form st))) st
         /\ trim (Machines.field_code (Machines.form st)) <> ""
         /\ ~ taken_by_other Machines.code
               (trim (Machines.field_code (Machines.form st))) st)
  /\ (forall (api : Machines.Backend) (st : Machines.State),
     taken_by_other Machines.name
       (trim (Machines.field_name (Machines.form st))) st
     \/ taken_by_other Machines.code
          (trim (Machines.field_code (Machines.form st))) st ->
     fst (Machines.validateForm st) = false
     /\ Machines.calls (Machines.handleFormSubmit api st) = Machines.calls st)
  /\ (forall st : Products.State,
     fst (Products.validateForm st) = true
     <-> trim (Products.field_name (Products.form st)) <> ""
         /\ Products.field_type (Products.form st) <> ""
         /\ Products.field_price_standard (Products.form st) <> ""
         /\ number_lt0
              (Number_ (Products.field_price_standard (Products.form st)))
            = false).
Proof.
  assert (Hm : forall st : Machines.State,
     fst (Machines.validateForm st) = true
     <-> trim (Machines.field_name (Machines.form st)) <> ""
         /\ ~ taken_by_other Machines.name
               (trim (Machines.field_name (Machines.form st))) st
         /\ trim (Machines.field_code (Machines.form st)) <> ""
         /\ ~ taken_by_other Machines.code
               (trim (Machines.field_code (Machines.form st))) st).
  { intros st. rewrite machines_valid_iff.
    rewrite <- isNameDuplicate_spec, <- isCodeDuplicate_spec.
    rewrite !not_true_iff_false. reflexivity. }
  split; [exact Hm|]. split; [|exact products_valid_iff].
  intros api st Htaken.
  assert (Hv : fst (Machines.validateForm st) = false).
  { apply not_true_is_false. rewrite Hm. intros (_ & Hn & _ & Hc).
    destruct Htaken; contradiction. }
  split; [exact Hv|].
  unfold Machines.handleFormSubmit.
  pose proof (machines_validate_keeps st) as (Hcalls & _).
  destruct (Machines.validateForm st) as [valid st']. simpl in *.
  rewrite Hv. simpl. exact Hcalls.
Qed.

End Uniqueness_facts.

(** ** Status toggle and payload *)

Section Toggle_facts.
Context `{JSBuiltins}.

Lemma loadMachines_keeps_form (api : Machines.Backend) (st : Machines.State) :
  Machines.form (Machines.loadMachines api st) = Machines.form st
  /\ Machines.editingMachine (Machines.loadMachines api st)
     = Machines.editingMachine st
  /\ Machines.calls (Machines.loadMachines api st)
     = (Machines.calls st ++ [Machines.GetAll])%list.
Proof.
  unfold Machines.loadMachines, Machines.await.
  destruct (api _ _); [rewrite applyFilters_shape|]; repeat split.
Qed.

Lemma loadProducts_keeps_form (api : Products.Backend) (st : Products.State) :
  Products.form (Products.loadProducts api st) = Products.form st
  /\ Products.editingProduct (Products.loadProducts api st)
     = Products.editingProduct st
  /\ Products.calls (Products.loadProducts api st)
     = (Products.calls st ++ [Products.GetAll])%list.
Proof.
  unfold Products.loadProducts, Products.await.
  destruct (api _ _); repeat split.
Qed.

Lemma machines_toggle_unfold (api : Machines.Backend) (machineId : string)
    (currentlyActive : bool) (st : Machines.State) (value : list Machines.Machine) :
  api (Machines.calls st) (toggle_call machineId currentlyActive)
    = Fulfilled value ->
  Machines.handleToggleStatus api true machineId currentlyActive st
  = Machines.loadMachines api
      (Machines.resync_edit_form machineId currentlyActive
         (Machines.showFeedback
            (if currentlyActive then "Máquina desactivada."
             else "Máquina activada.")
            (if currentlyActive then "warning" else "success")
            (Machines.set_calls
               (Machines.calls st ++ [toggle_call machineId currentlyActive])
               st))).
Proof.
  unfold Machines.handleToggleStatus, Machines.await, toggle_call.
  destruct currentlyActive; simpl; intros ->; reflexivity.
Qed.

(** C2, as amended: in Machines a status toggle that succeeds on the
    machine held in the edit form writes the new status into the form's
    status field and into the held machine, then reloads.  In Products a
    toggle never writes to the form: a successful one shows its message
    and reloads, and the status field keeps the value it had. *)
Theorem toggle_resyncs_edit_form :
  (forall (api : Machines.Backend) (st : Machines.State)
        (machineId : string) (currentlyActive : bool)
        (e : Machines.Machine) (value : list Machines.Machine),
     Machines.editingMachine st = Some e ->
     String_ (Machines.id e) = machineId ->
     api (Machines.calls st) (toggle_call machineId currentlyActive)
       = Fulfilled value ->
     Machines.field_active (Machines.form
       (Machines.handleToggleStatus api true machineId currentlyActive st))
       = String_of_bool (negb currentlyActive)
     /\ Machines.editingMachine
          (Machines.handleToggleStatus api true machineId currentlyActive st)
        = Some {| Machines.id := Machines.id e;
                  Machines.name := Machines.name e;
                  Machines.code := Machines.code e;
                  Machines.notes := Machines.notes e;
                  Machines.isActive := VBool (negb currentlyActive) |}
     /\ Machines.calls
          (Machines.handleToggleStatus api true machineId currentlyActive st)
        = (Machines.calls st
           ++ [toggle_call machineId currentlyActive; Machines.GetAll])%list)
  /\ (forall (api : Products.Backend) (st : Products.State)
        (confirmed : bool) (productId : string) (currentlyActive : bool),
     Products.form
       (Products.handleToggleStatus api confirmed productId currentlyActive st)
     = Products.form st)
  /\ (forall (api : Products.Backend) (st : Products.State)
        (productId : string) (currentlyActive : bool)
        (value : list Products.Product),
     api (Products.calls st)
       (Products.SetStatus productId (negb currentlyActive))
       = Fulfilled value ->
     Products.calls
       (Products.handleToggleStatus api true productId currentlyActive st)
     = (Products.calls st
        ++ [Products.SetStatus productId (negb currentlyActive);
            Products.GetAll])%list).
Proof.
  split; [|split].
  - intros api st machineId currentlyActive e value Hedit Hid Hcall.
    rewrite (machines_toggle_unfold _ _ _ _ _ Hcall).
    destruct (loadMachines_keeps_form api
      (Machines.resync_edit_form machineId currentlyActive
         (Machines.showFeedback
            (if currentlyActive then "Máquina desactivada."
             else "Máquina activada.")
            (if currentlyActive then "warning" else "success")
            (Machines.set_calls
               (Machines.calls st ++ [toggle_call machineId currentlyActive])
               st)))) as (-> & -> & ->).
    unfold Machines.resync_edit_form; simpl. rewrite Hedit.
    unfold Machines.same_id.
    rewrite (proj2 (str_eqb_true _ _) Hid); simpl.
    rewrite <- app_assoc. repeat split.
  - intros api st confirmed productId currentlyActive.
    unfold Products.handleToggleStatus, Products.await.
    destruct confirmed; simpl; [|reflexivity].
    destruct (api _ _); [|reflexivity].
    destruct (loadProducts_keeps_form api
      (Products.showFeedback
         (if currentlyActive then "Producto desactivado."
          else "Producto activado.") "success"
         (Products.set_calls
            (Products.calls st
             ++ [Products.SetStatus productId (negb currentlyActive)]) st)))
      as (-> & _). reflexivity.
  - intros api st productId currentlyActive value Hcall.
    unfold Products.handleToggleStatus, Products.await; simpl.
    rewrite Hcall.
    destruct (loadProducts_keeps_form api
      (Products.showFeedback
         (if currentlyActive then "Producto desactivado."
          else "Producto activado.") "success"
         (Products.set_calls
            (Products.calls st
             ++ [Products.SetStatus productId (negb currentlyActive)]) st)))
      as (_ & _ & ->). simpl. rewrite <- app_assoc. reflexivity.
Qed.

(** C10: whatever the form holds, the payload's investor price is [null]
    when the investor input parses to NaN or to zero, and the parsed
    number otherwise; its standard price is 0 when the standard input
    parses to NaN. *)
Theorem collectFormData_prices (st : Products.State) :
  (parseFloat (Products.field_price_investor (Products.form st)) = NaN
   \/ (exists q : Q,
         parseFloat (Products.field_price_investor (Products.form st)) = Fin q
         /\ (q == 0)%Q) ->
   Products.p_priceInvestor (Products.collectFormData st) = None)
  /\ (number_truthy
        (parseFloat (Products.field_price_investor (Products.form st)))
      = true ->
      Products.p_priceInvestor (Products.collectFormData st)
      = Some (parseFloat (Products.field_price_investor (Products.form st))))
  /\ (parseFloat (Products.field_price_standard (Products.form st)) = NaN ->
      Products.p_priceStandard (Products.collectFormData st) = Fin 0).
Proof.
  unfold Products.collectFormData; simpl. split; [|split].
  - intros [-> | (q & -> & Hq)]; simpl; [reflexivity|].
    apply Qeq_bool_iff in Hq. rewrite Hq. reflexivity.
  - intros ->. reflexivity.
  - intros ->. reflexivity.
Qed.

End Toggle_facts.

(** ** Further properties of the handlers *)

Section Api_extra.
Context `{JSBuiltins}.

(** X1: [request] resolves exactly when [fetch] answers with a status
    from 200 to 299 and either the status is 204, giving [null], or the
    body parses, giving the parsed value; a failed [fetch] rejects with
    its own message and a 2xx body that does not parse rejects with the
    parser's message. *)
Theorem request_settles
    (fetch : string -> Api.Config -> Api.FetchOutcome)
    (endpoint : string) (options : Api.Options) :
  (forall j : json,
     Api.request fetch endpoint options = Api.Resolved j
     <-> exists r : Api.Response,
           fetch (Api.API_BASE +:+ endpoint) (Api.build_config options)
             = Api.Responded r
           /\ (200 <= Api.status r <= 299)%Z
           /\ ((Api.status r = 204%Z /\ j = JNull)
               \/ (Api.status r <> 204%Z /\ Api.body r = Api.Parsed j)))
  /\ (forall message : string,
     fetch (Api.API_BASE +:+ endpoint) (Api.build_config options)
       = Api.NetworkError message ->
     Api.request fetch endpoint options = Api.Rejected message)
  /\ (forall (r : Api.Response) (message : string),
     fetch (Api.API_BASE +:+ endpoint) (Api.build_config options)
       = Api.Responded r ->
     (200 <= Api.status r <= 299)%Z -> Api.status r <> 204%Z ->
     Api.body r = Api.ParseError message ->
     Api.request fetch endpoint options = Api.Rejected message).
Proof.
  unfold Api.request.
  destruct (fetch _ _) as [msg|r] eqn:Hfetch.
  - split; [|split].
    + intros j. split; [discriminate|]. intros (r & Hr & _). discriminate.
    + intros message [= ->]. reflexivity.
    + intros r message Hr. discriminate.
  - assert (Hok : Api.ok r = true <-> (200 <= Api.status r <= 299)%Z).
    { unfold Api.ok. rewrite andb_true_iff, !Z.leb_le. reflexivity. }
    split; [|split].
    + intros j. destruct (Api.ok r) eqn:Hokr; simpl.
      * destruct (Z.eqb_spec (Api.status r) 204) as [H204|H204].
        -- split.
           ++ intros [= <-]. exists r. split; [reflexivity|].
              split; [apply Hok; reflexivity | left; auto].
           ++ intros (r' & [= <-] & _ & [[_ ->] | [Hne _]]);
                [reflexivity | contradiction].
        -- split.
           ++ destruct (Api.body r) as [j'|m] eqn:Hbody; [|discriminate].
              intros [= <-]. exists r. split; [reflexivity|].
              split; [apply Hok; reflexivity | right; auto].
           ++ intros (r' & [= <-] & _ & [[He _] | [_ Hb]]);
                [contradiction | rewrite Hb; reflexivity].
      * split; [destruct (Api.error_message r); discriminate|].
        intros (r' & [= <-] & Hrange & _). apply Hok in Hrange. congruence.
    + discriminate.
    + intros r' message [= <-] Hrange Hne Hb.
      rewrite (proj2 Hok Hrange); simpl.
      destruct (Z.eqb_spec (Api.status r) 204); [contradiction|].
      rewrite Hb. reflexivity.
Qed.

(** X2: every header the caller passes reaches [fetch] with the
    caller's value, and every other header has its default value, so
    [Content-Type] and [Accept] are sent on every request. *)
Theorem build_config_headers (options : Api.Options) (k : string) :
  Api.cfg_headers (Api.build_config options) !! k
  = match Api.opt_headers options with
    | Some h =>
        match h !! k with
        | Some v => Some v
        | None => Api.defaultHeaders !! k
        end
    | None => Api.defaultHeaders !! k
    end.
Proof.
  unfold Api.build_config; simpl. rewrite lookup_union.
  destruct (Api.opt_headers options) as [h|]; simpl.
  - destruct (h !! k), (Api.defaultHeaders !! k); reflexivity.
  - rewrite lookup_empty. destruct (Api.defaultHeaders !! k); reflexivity.
Qed.

End Api_extra.

Arguments bytes : simpl never.

Lemma bytes_cons (c : Ascii.ascii) (s : string) :
  bytes (String c s) = Ascii.N_of_ascii c :: bytes s.
Proof. reflexivity. Qed.

Lemma bytes_app (s t : string) : bytes (s +:+ t) = (bytes s ++ bytes t)%list.
Proof.
  induction s as [|c s IH]; [reflexivity|].
  change (bytes (String c (s +:+ t)) = (bytes (String c s) ++ bytes t)%list).
  rewrite !bytes_cons, IH. reflexivity.
Qed.

Lemma escapeHTML_no_markup_aux (n : nat) :
  forall s, (String.length s <= n)%nat ->
    ~ In 60%N (bytes (escapeHTML s)) /\ ~ In 62%N (bytes (escapeHTML s)).
Proof.
  induction n as [|n IH]; intros s Hlen.
  - destruct s; [|simpl in Hlen; lia]. simpl. split; intros [].
  - destruct s as [|c rest]; [simpl; split; intros []|].
    simpl in Hlen.
    assert (Hrest : (String.length rest <= n)%nat) by lia.
    destruct (IH rest Hrest) as [IH1 IH2].
    simpl.
    destruct (N.eqb_spec (Ascii.N_of_ascii c) 38).
    { rewrite bytes_app. split; intros Hin; apply in_app_or in Hin as [Hin|Hin];
        try (simpl in Hin; intuition discriminate); tauto. }
    destruct (N.eqb_spec (Ascii.N_of_ascii c) 60).
    { rewrite bytes_app. split; intros Hin; apply in_app_or in Hin as [Hin|Hin];
        try (simpl in Hin; intuition discriminate); tauto. }
    destruct (N.eqb_spec (Ascii.N_of_ascii c) 62).
    { rewrite bytes_app. split; intros Hin; apply in_app_or in Hin as [Hin|Hin];
        try (simpl in Hin; intuition discriminate); tauto. }
    destruct (N.eqb_spec (Ascii.N_of_ascii c) 194) as [H194|H194].
    { destruct rest as [|d rest'].
      - rewrite bytes_cons. simpl. split; intros [Hc|[]]; congruence.
      - destruct (N.eqb_spec (Ascii.N_of_ascii d) 160).
        + simpl in Hrest.
          destruct (IH rest' ltac:(lia)) as [IH1' IH2'].
          rewrite bytes_app.
          split; intros Hin; apply in_app_or in Hin as [Hin|Hin];
            try (simpl in Hin; intuition discriminate); tauto.
        + rewrite bytes_cons. split; intros [Hc|Hin]; try congruence; tauto. }
    rewrite bytes_cons. split; intros [Hc|Hin]; try congruence; tauto.
Qed.

Lemma escapeHTML_plain (s : string) :
  plain_text s = true -> escapeHTML s = s.
Proof.
  unfold plain_text. induction s as [|c s IH]; [reflexivity|].
  rewrite bytes_cons. simpl. rewrite !andb_true_iff, !negb_true_iff.
  intros [[[[Hlt Ha] Hb] Hc] Hs].
  rewrite Ha, Hb, Hc.
  destruct (N.eqb_spec (Ascii.N_of_ascii c) 194) as [H194|_].
  { apply N.ltb_lt in Hlt. lia. }
  rewrite (IH Hs). reflexivity.
Qed.

Lemma text_controls_plain (s : string) :
  ~ In 10%N (bytes s) -> ~ In 13%N (bytes s) ->
  text_input_value s = s /\ textarea_value s = s.
Proof.
  induction s as [|c s IH]; [split; reflexivity|].
  rewrite bytes_cons. intros Hlf Hcr.
  assert (H10 : Ascii.N_of_ascii c <> 10%N) by (intros E; apply Hlf; left; exact E).
  assert (H13 : Ascii.N_of_ascii c <> 13%N) by (intros E; apply Hcr; left; exact E).
  destruct IH as [IH1 IH2];
    [intros E; apply Hlf; right; exact E
    |intros E; apply Hcr; right; exact E|].
  simpl.
  rewrite (proj2 (N.eqb_neq _ _) H10), (proj2 (N.eqb_neq _ _) H13). simpl.
  rewrite IH1, IH2. split; reflexivity.
Qed.

(** X3: the output of [escapeHTML] holds neither [<] nor [>], and ASCII
    text without [&], [<] and [>] comes back unchanged. *)
Theorem escapeHTML_no_markup (s : string) :
  ~ In 60%N (bytes (escapeHTML s))
  /\ ~ In 62%N (bytes (escapeHTML s))
  /\ (plain_text s = true -> escapeHTML s = s).
Proof.
  destruct (escapeHTML_no_markup_aux (String.length s) s (le_n _)) as [H1 H2].
  split; [exact H1|]. split; [exact H2 | apply escapeHTML_plain].
Qed.

Lemma own_route_keys (key : string) (r : Router.Route) :
  Router.own_route key Router.ROUTES = Some r ->
  In key ["dashboard"; "products"; "machines"; "production"; "clients";
          "invoicing"; "payroll"; "investor"].
Proof.
  unfold Router.ROUTES. simpl.
  repeat match goal with
  | |- context [str_eqb ?k key] =>
      let E := fresh "E" in
      destruct (str_eqb k key) eqn:E;
      [apply bool_decide_eq_true_1 in E; subst key; intros _; simpl; tauto|]
  end.
  discriminate.
Qed.

(** X4: without a [#view-container], [navigate] changes nothing; with
    one, the location and the set of links are kept, and every link ends
    active exactly when its [data-route] is the route key, with the
    matching [aria-current]. *)
Theorem navigate_links (import_products : option string) (pg : Router.Page) :
  (Router.container pg = None -> Router.navigate import_products pg = pg)
  /\ (Router.container pg <> None ->
      Router.location_hash (Router.navigate import_products pg)
        = Router.location_hash pg
      /\ map Router.data_route (Router.links (Router.navigate import_products pg))
         = map Router.data_route (Router.links pg)
      /\ forall link,
           In link (Router.links (Router.navigate import_products pg)) ->
           (Router.link_active link = true
            <-> Router.data_route link = Router.route_key pg)
           /\ Router.aria_current link
              = (if Router.link_active link then "page" else "false")).
Proof.
  unfold Router.navigate. split.
  - intros ->. reflexivity.
  - destruct (Router.container pg) as [v|]; [|congruence]. intros _. simpl.
    split; [reflexivity|]. split.
    + unfold Router.setActiveLink. rewrite map_map. reflexivity.
    + intros link Hin. unfold Router.setActiveLink in Hin.
      apply in_map_iff in Hin as (l0 & <- & _). simpl.
      split; [|reflexivity].
      unfold str_eqb. apply bool_decide_eq_true.
Qed.

(** X5: a hash that names no route and no inherited property shows the
    dashboard under the dashboard's title, yet leaves the dashboard link
    inactive: the links are matched against the hash, not against the
    route shown. *)
Theorem navigate_fallback (import_products : option string)
    (pg : Router.Page) (v : Router.View) :
  Router.container pg = Some v ->
  Router.own_route (Router.route_key pg) Router.ROUTES = None ->
  existsb (str_eqb (Router.route_key pg)) Router.inherited_names = false ->
  Router.document_title (Router.navigate import_products pg)
    = "Dashboard — CapFlow"
  /\ Router.container (Router.navigate import_products pg)
     = Some (Router.Placeholder "Dashboard" "⊞" "Resumen general del sistema.")
  /\ forall link,
       In link (Router.links (Router.navigate import_products pg)) ->
       Router.data_route link = "dashboard" ->
       Router.link_active link = false.
Proof.
  intros Hc Hown Hinh. unfold Router.navigate, Router.resolve.
  rewrite Hc, Hown, Hinh. simpl. repeat split.
  intros link Hin Hd. unfold Router.setActiveLink in Hin.
  apply in_map_iff in Hin as (l0 & <- & _). simpl in *.
  apply bool_decide_eq_false_2. intros Heq.
  rewrite Hd in Heq. rewrite <- Heq in Hown. discriminate Hown.
Qed.

(** X6: only the [products] hash imports a module, and shows the error
    view when the import fails; every other hash that names no inherited
    property shows a placeholder, [machines] included; a hash that names a
    property inherited from [Object.prototype] ends in the error view
    under the title [undefined]. *)
Theorem navigate_views (import_products : option string)
    (pg : Router.Page) (v : Router.View) :
  Router.container pg = Some v ->
  (Router.route_key pg = "products" ->
   Router.container (Router.navigate import_products pg)
   = Some match import_products with
          | None => Router.ProductsModule
          | Some message => Router.LoadError (Router.ImportFailed message)
          end)
  /\ (Router.route_key pg <> "products" ->
      existsb (str_eqb (Router.route_key pg)) Router.inherited_names = false ->
      exists name icon subtitle,
        Router.container (Router.navigate import_products pg)
        = Some (Router.Placeholder name icon subtitle))
  /\ (Router.route_key pg = "machines" ->
      Router.container (Router.navigate import_products pg)
      = Some (Router.Placeholder "Máquinas" "⚙"
                "Módulo de máquinas próximamente."))
  /\ (existsb (str_eqb (Router.route_key pg)) Router.inherited_names = true ->
      Router.container (Router.navigate import_products pg)
      = Some (Router.LoadError Router.LoaderNotAFunction)
      /\ Router.document_title (Router.navigate import_products pg)
         = "undefined").
Proof.
  intros Hc. unfold Router.navigate. rewrite Hc.
  split; [|split; [|split]].
  - intros ->. reflexivity.
  - intros Hne Hinh. simpl. unfold Router.resolve. rewrite Hinh.
    destruct (Router.own_route (Router.route_key pg) Router.ROUTES)
      as [r|] eqn:Hown.
    + apply own_route_keys in Hown as Hkey. simpl in Hkey.
      destruct Hkey as [Hk|[Hk|[Hk|[Hk|[Hk|[Hk|[Hk|[Hk|[]]]]]]]]];
        rewrite <- Hk in Hown; try (symmetry in Hk; contradiction);
        vm_compute in Hown; injection Hown as <-; simpl; eauto.
    + simpl. eauto.
  - intros ->. reflexivity.
  - intros Hinh. simpl. unfold Router.resolve.
    destruct (Router.own_route (Router.route_key pg) Router.ROUTES)
      as [r|] eqn:Hown.
    + apply own_route_keys in Hown as Hkey. simpl in Hkey.
      destruct Hkey as [Hk|[Hk|[Hk|[Hk|[Hk|[Hk|[Hk|[Hk|[]]]]]]]]];
        rewrite <- Hk in Hinh; vm_compute in Hinh; discriminate Hinh.
    + rewrite Hinh. split; reflexivity.
Qed.

Section Machines_extra.
Context `{JSBuiltins}.



Lemma machines_handleEdit_frame (machineId : string) (st : Machines.State) :
  Machines.allMachines (Machines.handleEdit machineId st)
    = Machines.allMachines st
  /\ Machines.calls (Machines.handleEdit machineId st) = Machines.calls st.
Proof.
  unfold Machines.handleEdit. destruct (List.find _ _); split; reflexivity.
Qed.

(** X8: [handleEdit] with an id no cached machine has, compared as
    strings, changes nothing; with an id some cached machine has it holds
    the first such machine, shows the status selector and fills the
    form from it: name and code as a text input holds them, without line
    breaks, notes as a textarea gives them back, with every line break a
    line feed, status [true] unless the flag is [false].  It never
    touches the cache and makes no call. *)
Theorem machines_handleEdit_lookup (machineId : string) (st : Machines.State) :
  ((forall m, In m (Machines.allMachines st) ->
      String_ (Machines.id m) <> machineId) ->
   Machines.handleEdit machineId st = st)
  /\ ((exists m, In m (Machines.allMachines st)
         /\ String_ (Machines.id m) = machineId) ->
      exists m,
        List.find (fun x => Machines.same_id x machineId)
          (Machines.allMachines st) = Some m
        /\ In m (Machines.allMachines st)
        /\ String_ (Machines.id m) = machineId
        /\ Machines.editingMachine (Machines.handleEdit machineId st) = Some m
        /\ Machines.field_name (Machines.form (Machines.handleEdit machineId st))
           = text_input_value (Machines.name m)
        /\ Machines.field_code (Machines.form (Machines.handleEdit machineId st))
           = text_input_value (Machines.code m)
        /\ Machines.field_notes (Machines.form (Machines.handleEdit machineId st))
           = textarea_value (default "" (Machines.notes m))
        /\ Machines.field_active (Machines.form (Machines.handleEdit machineId st))
           = String_of_bool (not_strictly_false (Machines.isActive m))
        /\ Machines.status_group_display
             (Machines.form (Machines.handleEdit machineId st)) = "")
  /\ Machines.allMachines (Machines.handleEdit machineId st)
     = Machines.allMachines st
  /\ Machines.calls (Machines.handleEdit machineId st) = Machines.calls st
  /\ (forall s, ~ In 10%N (bytes s) -> ~ In 13%N (bytes s) ->
      text_input_value s = s /\ textarea_value s = s).
Proof.
  unfold Machines.handleEdit.
  destruct (List.find _ _) as [m|] eqn:Hfind.
  - apply List.find_some in Hfind as Hm. destruct Hm as [Hin Hid].
    apply str_eqb_true in Hid.
    split; [|split; [|split; [|split]]];
      [| |reflexivity|reflexivity|apply text_controls_plain].
    + intros Hnone. destruct (Hnone m Hin Hid).
    + intros _. exists m. simpl. repeat split; assumption.
  - split; [reflexivity|].
    split; [|split; [|split]];
      [|reflexivity|reflexivity|apply text_controls_plain].
    intros (m & Hin & Hid).
    pose proof (List.find_none _ _ Hfind m Hin) as Hf.
    apply str_eqb_false in Hf. contradiction.
Qed.

(** X9: cancelling leaves the form of a freshly mounted page and no
    machine held; cancelling right after an edit click ends in the same
    state as cancelling without the click; the payload read from the
    reset form carries no [isActive]. *)
Theorem cancel_restores_fresh_form (st : Machines.State) (machineId : string) :
  Machines.form (Machines.resetFormToCreateMode st)
    = Machines.form Machines.initial
  /\ Machines.editingMachine (Machines.resetFormToCreateMode st) = None
  /\ Machines.resetFormToCreateMode (Machines.handleEdit machineId st)
     = Machines.resetFormToCreateMode st
  /\ Machines.collectFormData (Machines.resetFormToCreateMode st)
     = {| Machines.p_name := trim ""; Machines.p_code := trim "";
          Machines.p_notes := trim ""; Machines.p_isActive := None |}.
Proof.
  repeat split.
  unfold Machines.handleEdit. destruct (List.find _ _); reflexivity.
Qed.

Lemma machines_valid_state (st : Machines.State) :
  fst (Machines.validateForm st) = true ->
  snd (Machines.validateForm st) = Machines.clearFormErrors st.
Proof.
  unfold Machines.validateForm.
  repeat match goal with
  | |- context [if ?c then _ else _] => destruct c
  end; simpl; intros Hv; try discriminate Hv; reflexivity.
Qed.

(** What a submit does once validation has passed. *)
Lemma machines_submit_valid (api : Machines.Backend) (st : Machines.State) :
  fst (Machines.validateForm st) = true ->
  Machines.handleFormSubmit api st
  = let st1 :=
      Machines.set_calls (Machines.calls st ++ [machines_submit_call st])
        (Machines.set_submit_btn
           (setButtonLoading (Machines.submit_btn st) true)
           (Machines.clearFormErrors st)) in
    let st2 :=
      match api (Machines.calls st) (machines_submit_call st) with
      | Fulfilled _ =>
          Machines.loadMachines api
            (Machines.resetFormToCreateMode
               (Machines.showFeedback
                  (match Machines.editingMachine st with
                   | Some _ => "Máquina actualizada correctamente."
                   | None => "Máquina creada correctamente."
                   end) "success" st1))
      | RejectedWith message =>
          Machines.showFeedback ("Error al guardar: " +:+ message) "error" st1
      end in
    Machines.set_submit_btn
      (setButtonLoading (Machines.submit_btn st2) false) st2.
Proof.
  intros Hv. unfold Machines.handleFormSubmit.
  pose proof (machines_valid_state st Hv) as Hst.
  destruct (Machines.validateForm st) as [valid st']. simpl in Hv, Hst.
  subst valid st'. cbv zeta.
  unfold Machines.await, machines_submit_call, Machines.collectFormData.
  destruct st as [editing cache active f btn q status badge t ts cs].
  destruct f. destruct editing as [e|]; simpl;
    match goal with
    | |- context [api ?h ?c] => destruct (api h c)
    end; reflexivity.
Qed.

(** X10: a Machines submit that passes validation and whose create or
    update is fulfilled makes that call and then a fetch-all, leaves the
    form fresh in create mode with the button enabled, replaces the cache
    by what the fetch-all returns, and shows the success toast first. *)
Theorem machines_submit_success (api : Machines.Backend)
    (st : Machines.State) (value : list Machines.Machine) :
  fst (Machines.validateForm st) = true ->
  api (Machines.calls st) (machines_submit_call st) = Fulfilled value ->
  Machines.calls (Machines.handleFormSubmit api st)
    = (Machines.calls st ++ [machines_submit_call st; Machines.GetAll])%list
  /\ Machines.editingMachine (Machines.handleFormSubmit api st) = None
  /\ Machines.form (Machines.handleFormSubmit api st)
     = Machines.form Machines.initial
  /\ disabled (Machines.submit_btn (Machines.handleFormSubmit api st)) = false
  /\ (forall machines,
       api (Machines.calls st ++ [machines_submit_call st])%list Machines.GetAll
         = Fulfilled machines ->
       Machines.allMachines (Machines.handleFormSubmit api st) = machines)
  /\ exists later,
       Machines.toasts (Machines.handleFormSubmit api st)
       = (Machines.toasts st
          ++ {| Machines.toast_message :=
                  match Machines.editingMachine st with
                  | Some _ => "Máquina actualizada correctamente."
                  | None => "Máquina creada correctamente."
                  end;
                Machines.toast_type := "success" |} :: later)%list.
Proof.
  intros Hv Hcall. rewrite (machines_submit_valid api st Hv). simpl.
  rewrite Hcall. simpl.
  set (st3 := Machines.resetFormToCreateMode _).
  destruct (loadMachines_keeps_form api st3) as (Hform & Hedit & Hcalls).
  split; [|split; [|split; [|split; [|split]]]].
  - rewrite Hcalls. subst st3. simpl. rewrite <- app_assoc. reflexivity.
  - rewrite Hedit. reflexivity.
  - rewrite Hform. reflexivity.
  - reflexivity.
  - intros machines Hget. unfold Machines.loadMachines, Machines.await.
    change (Machines.calls (Machines.showTableLoading true st3))
      with (Machines.calls st ++ [machines_submit_call st])%list.
    rewrite Hget. rewrite applyFilters_shape. reflexivity.
  - unfold Machines.loadMachines, Machines.await.
    destruct (api _ Machines.GetAll).
    + rewrite applyFilters_shape. simpl. exists []. reflexivity.
    + simpl. rewrite <- app_assoc. simpl. eexists. reflexivity.
Qed.

(** X11: a Machines submit whose create or update is rejected makes
    that one call only and keeps the cache, the table, the held machine
    and what the user typed; the button is enabled again and the toast
    shows the rejection's message. *)
Theorem machines_submit_rejected (api : Machines.Backend)
    (st : Machines.State) (message : string) :
  fst (Machines.validateForm st) = true ->
  api (Machines.calls st) (machines_submit_call st) = RejectedWith message ->
  Machines.calls (Machines.handleFormSubmit api st)
    = (Machines.calls st ++ [machines_submit_call st])%list
  /\ Machines.allMachines (Machines.handleFormSubmit api st)
     = Machines.allMachines st
  /\ Machines.table (Machines.handleFormSubmit api st) = Machines.table st
  /\ Machines.editingMachine (Machines.handleFormSubmit api st)
     = Machines.editingMachine st
  /\ Machines.form (Machines.handleFormSubmit api st)
     = Machines.form (Machines.clearFormErrors st)
  /\ Machines.collectFormData (Machines.handleFormSubmit api st)
     = Machines.collectFormData st
  /\ disabled (Machines.submit_btn (Machines.handleFormSubmit api st)) = false
  /\ Machines.toasts (Machines.handleFormSubmit api st)
     = (Machines.toasts st
        ++ [{| Machines.toast_message := "Error al guardar: " +:+ message;
               Machines.toast_type := "error" |}])%list.
Proof.
  intros Hv Hcall. rewrite (machines_submit_valid api st Hv). simpl.
  rewrite Hcall. repeat split.
Qed.

(** X12: after a submit that passes validation the button shows the
    caption it had when the first such submit started, whatever mode the
    form is left in: [dataset.originalText] is written once and restored
    ever after. *)
Theorem submit_button_keeps_first_caption (api : Machines.Backend)
    (st : Machines.State) :
  fst (Machines.validateForm st) = true ->
  let caption :=
    default (innerHTML (Machines.submit_btn st))
      (originalText (Machines.submit_btn st)) in
  innerHTML (Machines.submit_btn (Machines.handleFormSubmit api st)) = caption
  /\ originalText (Machines.submit_btn (Machines.handleFormSubmit api st))
     = Some caption.
Proof.
  intros Hv caption. subst caption.
  rewrite (machines_submit_valid api st Hv). simpl.
  destruct (api _ _).
  - set (st3 := Machines.resetFormToCreateMode _).
    assert (Hbtn : Machines.submit_btn (Machines.loadMachines api st3)
                   = Machines.submit_btn st3).
    { unfold Machines.loadMachines, Machines.await.
      destruct (api _ _); [rewrite applyFilters_shape|]; reflexivity. }
    rewrite Hbtn. subst st3. simpl. split; reflexivity.
  - simpl. split; reflexivity.
Qed.

Lemma machines_toggle_rejected (api : Machines.Backend) (machineId : string)
    (currentlyActive : bool) (st : Machines.State) (message : string) :
  api (Machines.calls st) (toggle_call machineId currentlyActive)
    = RejectedWith message ->
  Machines.handleToggleStatus api true machineId currentlyActive st
  = Machines.showFeedback ("Error al cambiar estado: " +:+ message) "error"
      (Machines.set_calls
         (Machines.calls st ++ [toggle_call machineId currentlyActive]) st).
Proof.
  unfold Machines.handleToggleStatus, Machines.await, toggle_call.
  destruct currentlyActive; simpl; intros ->; reflexivity.
Qed.

Lemma products_toggle_rejected (api : Products.Backend) (productId : string)
    (currentlyActive : bool) (st : Products.State) (message : string) :
  api (Products.calls st) (Products.SetStatus productId (negb currentlyActive))
    = RejectedWith message ->
  Products.handleToggleStatus api true productId currentlyActive st
  = Products.showFeedback ("Error al cambiar estado: " +:+ message) "error"
      (Products.set_calls
         (Products.calls st
          ++ [Products.SetStatus productId (negb currentlyActive)]) st).
Proof.
  unfold Products.handleToggleStatus, Products.await. simpl.
  intros ->. reflexivity.
Qed.

(** X13: a toggle the user declines changes nothing and makes no call;
    a toggle the backend rejects makes that one call, shows the error and
    leaves the cache, the table, the badge, the form and the held entity
    as they were. *)
Theorem toggle_declined_or_rejected :
  (forall (api : Machines.Backend) (machineId : string)
        (currentlyActive : bool) (st : Machines.State),
     Machines.handleToggleStatus api false machineId currentlyActive st = st)
  /\ (forall (api : Machines.Backend) (machineId : string)
        (currentlyActive : bool) (st : Machines.State) (message : string),
     api (Machines.calls st) (toggle_call machineId currentlyActive)
       = RejectedWith message ->
     let st' :=
       Machines.handleToggleStatus api true machineId currentlyActive st in
     Machines.allMachines st' = Machines.allMachines st
     /\ Machines.table st' = Machines.table st
     /\ Machines.count_badge st' = Machines.count_badge st
     /\ Machines.form st' = Machines.form st
     /\ Machines.editingMachine st' = Machines.editingMachine st
     /\ Machines.calls st'
        = (Machines.calls st ++ [toggle_call machineId currentlyActive])%list
     /\ Machines.toasts st'
        = (Machines.toasts st
           ++ [{| Machines.toast_message :=
                    "Error al cambiar estado: " +:+ message;
                  Machines.toast_type := "error" |}])%list)
  /\ (forall (api : Products.Backend) (productId : string)
        (currentlyActive : bool) (st : Products.State),
     Products.handleToggleStatus api false productId currentlyActive st = st)
  /\ (forall (api : Products.Backend) (productId : string)
        (currentlyActive : bool) (st : Products.State) (message : string),
     api (Products.calls st)
       (Products.SetStatus productId (negb currentlyActive))
       = RejectedWith message ->
     let st' :=
       Products.handleToggleStatus api true productId currentlyActive st in
     Products.allProducts st' = Products.allProducts st
     /\ Products.table st' = Products.table st
     /\ Products.count_badge st' = Products.count_badge st
     /\ Products.form st' = Products.form st
     /\ Products.editingProduct st' = Products.editingProduct st
     /\ Products.calls st'
        = (Products.calls st
           ++ [Products.SetStatus productId (negb currentlyActive)])%list
     /\ Products.banner st'
        = Some {| Products.banner_text :=
                    "Error al cambiar estado: " +:+ message;
                  Products.banner_type := "error" |}).
Proof.
  split; [|split; [|split]].
  - reflexivity.
  - intros api machineId currentlyActive st message Hcall st'. subst st'.
    rewrite (machines_toggle_rejected _ _ _ _ _ Hcall). repeat split.
  - reflexivity.
  - intros api productId currentlyActive st message Hcall st'. subst st'.
    rewrite (products_toggle_rejected _ _ _ _ _ Hcall). repeat split.
Qed.

(** X14: in Machines a toggle of a machine other than the one held in
    the edit form, whatever its outcome, leaves the form and the held
    machine as they were. *)
Theorem toggle_of_another_machine_keeps_form (api : Machines.Backend)
    (machineId : string) (currentlyActive confirmed : bool)
    (st : Machines.State) :
  (forall e, Machines.editingMachine st = Some e ->
     String_ (Machines.id e) <> machineId) ->
  Machines.form
    (Machines.handleToggleStatus api confirmed machineId currentlyActive st)
    = Machines.form st
  /\ Machines.editingMachine
       (Machines.handleToggleStatus api confirmed machineId currentlyActive st)
     = Machines.editingMachine st.
Proof.
  intros Hother. destruct confirmed; [|split; reflexivity].
  destruct (api (Machines.calls st) (toggle_call machineId currentlyActive))
    as [value|message] eqn:Hcall.
  - rewrite (machines_toggle_unfold _ _ _ _ _ Hcall).
    match goal with
    | |- context [Machines.loadMachines api ?s] =>
        destruct (loadMachines_keeps_form api s) as (-> & -> & _)
    end.
    unfold Machines.resync_edit_form; simpl.
    destruct (Machines.editingMachine st) as [e|] eqn:Hedit;
      [|split; [reflexivity | exact Hedit]].
    unfold Machines.same_id.
    rewrite (proj2 (str_eqb_false _ _) (Hother e eq_refl)).
    split; [reflexivity | exact Hedit].
  - rewrite (machines_toggle_rejected _ _ _ _ _ Hcall).
    split; reflexivity.
Qed.

(** X15: a load whose fetch-all is fulfilled replaces the cache by the
    answer.  Machines then shows the answer filtered by the current search
    and status, with the badge to match; Products shows the whole answer,
    whatever the search box holds. *)
Theorem load_success_replaces_cache :
  (forall (api : Machines.Backend) (st : Machines.State)
        (machines : list Machines.Machine),
     api (Machines.calls st) Machines.GetAll = Fulfilled machines ->
     Machines.allMachines (Machines.loadMachines api st) = machines
     /\ Machines.search (Machines.loadMachines api st) = Machines.search st
     /\ Machines.filter_status (Machines.loadMachines api st)
        = Machines.filter_status st
     /\ Machines.table (Machines.loadMachines api st)
        = table_render
            (Machines.filter_results (Machines.set_allMachines machines st))
            (table_showLoading true (Machines.table st))
     /\ Machines.count_badge (Machines.loadMachines api st)
        = spec_badge "máquina"
            (length (Machines.filter_results
                       (Machines.set_allMachines machines st)))
            (length machines))
  /\ (forall (api : Products.Backend) (st : Products.State)
        (products : list Products.Product),
     api (Products.calls st) Products.GetAll = Fulfilled products ->
     Products.allProducts (Products.loadProducts api st) = products
     /\ Products.search (Products.loadProducts api st) = Products.search st
     /\ Products.table (Products.loadProducts api st)
        = table_render products (table_showLoading true (Products.table st))
     /\ Products.count_badge (Products.loadProducts api st)
        = spec_badge "producto" (length products) (length products)).
Proof.
  split.
  - intros api st machines Hget. unfold Machines.loadMachines, Machines.await.
    change (Machines.calls (Machines.showTableLoading true st))
      with (Machines.calls st).
    rewrite Hget, applyFilters_shape. repeat split.
  - intros api st products Hget. unfold Products.loadProducts, Products.await.
    change (Products.calls (Products.showTableLoading true st))
      with (Products.calls st).
    rewrite Hget. repeat split. apply products_badge_text.
Qed.

(** X16: when the search text normalizes to the empty string (and, in
    Machines, the status is [all] or unset) the filter output is the whole
    cache and the Machines badge shows the total alone. *)
Theorem blank_filters_show_whole_cache :
  (forall st : Machines.State,
     toLowerCase (trim (Machines.search st)) = "" ->
     Machines.filter_status st = "" \/ Machines.filter_status st = "all" ->
     Machines.filter_results st = Machines.allMachines st
     /\ Machines.count_badge (Machines.applyFilters st)
        = pretty (length (Machines.allMachines st))
          +:+ Machines.noun (length (Machines.allMachines st)))
  /\ (forall st : Products.State,
     toLowerCase (trim (Products.search st)) = "" ->
     Products.search_results st = Products.allProducts st).
Proof.
  split.
  - intros st Hq Hs.
    assert (Hall : Machines.filter_results st = Machines.allMachines st).
    { apply machines_unfiltered. unfold Machines.filter_query.
      rewrite Hq. unfold Machines.filter_status_value.
      destruct Hs as [-> | ->]; reflexivity. }
    split; [exact Hall|].
    rewrite applyFilters_shape. simpl. rewrite Hall.
    unfold spec_badge. rewrite Nat.ltb_irrefl, noun_suffix. reflexivity.
  - intros st Hq. unfold Products.search_results. rewrite Hq. reflexivity.
Qed.

Lemma validate_keeps_display (st : Machines.State) :
  Machines.status_group_display (Machines.form (snd (Machines.validateForm st)))
  = Machines.status_group_display (Machines.form st).
Proof.
  unfold Machines.validateForm.
  repeat match goal with
  | |- context [if ?c then _ else _] => destruct c
  end; reflexivity.
Qed.

Lemma loadMachines_effect (api : Machines.Backend) (st : Machines.State) :
  Machines.calls (Machines.loadMachines api st)
    = (Machines.calls st ++ [Machines.GetAll])%list
  /\ (Machines.allMachines (Machines.loadMachines api st)
        = Machines.allMachines st
      \/ api (Machines.calls st) Machines.GetAll
         = Fulfilled (Machines.allMachines (Machines.loadMachines api st))).
Proof.
  unfold Machines.loadMachines, Machines.await.
  change (Machines.calls (Machines.showTableLoading true st))
    with (Machines.calls st).
  destruct (api (Machines.calls st) Machines.GetAll) as [ms|msg] eqn:Hget.
  - rewrite applyFilters_shape. simpl. split; [reflexivity | right; reflexivity].
  - simpl. split; [reflexivity | left; reflexivity].
Qed.

Lemma cache_from_fetch_same (api : Machines.Backend) (st st' : Machines.State) :
  Machines.allMachines st' = Machines.allMachines st ->
  Machines.calls st' = Machines.calls st ->
  cache_from_fetch api st st'.
Proof.
  intros Ha Hc. unfold cache_from_fetch. rewrite Hc.
  split; [left; exact Ha|]. split; [reflexivity | lia].
Qed.

Lemma cache_from_fetch_load (api : Machines.Backend)
    (st st1 : Machines.State) (extra : list Machines.ApiCall) :
  Machines.allMachines st1 = Machines.allMachines st ->
  Machines.calls st1 = (Machines.calls st ++ extra)%list ->
  (length extra <= 1)%nat ->
  cache_from_fetch api st (Machines.loadMachines api st1).
Proof.
  intros Ha Hc Hlen.
  destruct (loadMachines_effect api st1) as [Hcalls Hcache].
  unfold cache_from_fetch. rewrite Hcalls, Hc.
  split; [|split].
  - destruct Hcache as [Hsame|Hget].
    + left. congruence.
    + right. exists (Machines.calls st ++ extra)%list.
      split; [reflexivity|]. split; [apply prefix_app_r; reflexivity|].
      rewrite <- Hc. exact Hget.
  - rewrite <- app_assoc. apply prefix_app_r. reflexivity.
  - rewrite !length_app. simpl. lia.
Qed.

(** X17: whatever the event, the cache afterwards is the cache before
    or the answer to a fetch-all that is the last call of the event; the
    call log only grows, by two calls at most. *)
Theorem machines_step_cache_and_log (api : Machines.Backend)
    (ev : MachinesEvent) (st : Machines.State) :
  (Machines.allMachines (machines_step api ev st) = Machines.allMachines st
   \/ exists h,
        Machines.calls (machines_step api ev st)
          = (h ++ [Machines.GetAll])%list
        /\ Machines.calls st `prefix_of` h
        /\ api h Machines.GetAll
           = Fulfilled (Machines.allMachines (machines_step api ev st)))
  /\ Machines.calls st `prefix_of` Machines.calls (machines_step api ev st)
  /\ (length (Machines.calls (machines_step api ev st))
      <= length (Machines.calls st) + 2)%nat.
Proof.
  change (cache_from_fetch api st (machines_step api ev st)).
  destruct ev as [n c notes active| | |s|s|machineId|machineId cur confirmed];
    cbn [machines_step].
  - apply cache_from_fetch_same; reflexivity.
  - destruct (fst (Machines.validateForm st)) eqn:Hv.
    + rewrite (machines_submit_valid api st Hv). cbv zeta.
      destruct (api (Machines.calls st) (machines_submit_call st)).
      * match goal with
        | |- cache_from_fetch _ _ (Machines.set_submit_btn _ ?s) =>
            change (cache_from_fetch api st s)
        end.
        apply (cache_from_fetch_load api st _ [machines_submit_call st]);
          [reflexivity | reflexivity | simpl; lia].
      * unfold cache_from_fetch. simpl.
        split; [left; reflexivity|].
        split; [apply prefix_app_r; reflexivity|].
        rewrite length_app. simpl. lia.
    + rewrite (machines_invalid_returns api st Hv).
      destruct (machines_validate_keeps st) as (Hc & Ha & _).
      apply cache_from_fetch_same; assumption.
  - apply cache_from_fetch_same; reflexivity.
  - rewrite applyFilters_shape. apply cache_from_fetch_same; reflexivity.
  - rewrite applyFilters_shape. apply cache_from_fetch_same; reflexivity.
  - destruct (machines_handleEdit_frame machineId st) as [Ha Hc].
    apply cache_from_fetch_same; assumption.
  - destruct confirmed; [|apply cache_from_fetch_same; reflexivity].
    destruct (api (Machines.calls st) (toggle_call machineId cur))
      as [value|message] eqn:Hcall.
    + rewrite (machines_toggle_unfold _ _ _ _ _ Hcall).
      apply (cache_from_fetch_load api st _ [toggle_call machineId cur]).
      * unfold Machines.resync_edit_form; simpl.
        destruct (Machines.editingMachine st);
          [destruct (Machines.same_id _ _)|]; reflexivity.
      * unfold Machines.resync_edit_form; simpl.
        destruct (Machines.editingMachine st);
          [destruct (Machines.same_id _ _)|]; reflexivity.
      * simpl; lia.
    + rewrite (machines_toggle_rejected _ _ _ _ _ Hcall).
      unfold cache_from_fetch. simpl.
      split; [left; reflexivity|].
      split; [apply prefix_app_r; reflexivity|].
      rewrite length_app. simpl. lia.
Qed.

Lemma payload_mode (st : Machines.State) :
  mode_consistent st -> payload_matches_mode (machines_submit_call st).
Proof.
  unfold mode_consistent, machines_submit_call, payload_matches_mode.
  intros [Hto Hfrom].
  destruct (Machines.editingMachine st) as [e|]; simpl.
  - destruct (str_eqb _ "none") eqn:Hd; simpl; [|discriminate].
    apply str_eqb_true in Hd. apply Hfrom in Hd. discriminate Hd.
  - rewrite (Hto eq_refl). reflexivity.
Qed.

Lemma machines_step_invariant (api : Machines.Backend) (ev : MachinesEvent)
    (st : Machines.State) :
  mode_consistent st ->
  Forall payload_matches_mode (Machines.calls st) ->
  mode_consistent (machines_step api ev st)
  /\ Forall payload_matches_mode (Machines.calls (machines_step api ev st)).
Proof.
  intros Hmode Hlog.
  destruct ev as [n c notes active| | |s|s|machineId|machineId cur confirmed];
    cbn [machines_step].
  - split; [exact Hmode | exact Hlog].
  - destruct (fst (Machines.validateForm st)) eqn:Hv.
    + pose proof (payload_mode st Hmode) as Hpay.
      rewrite (machines_submit_valid api st Hv). cbv zeta.
      destruct (api (Machines.calls st) (machines_submit_call st)).
      * match goal with
        | |- context [Machines.loadMachines api ?s] =>
            destruct (loadMachines_keeps_form api s) as (Hf & He & Hc);
            set (st3 := Machines.loadMachines api s) in *
        end.
        split.
        -- unfold mode_consistent. simpl. rewrite Hf, He. simpl. tauto.
        -- simpl. rewrite Hc. simpl.
           apply Forall_app. split; [|repeat constructor].
           apply Forall_app. split; [exact Hlog | repeat constructor; exact Hpay].
      * split; [exact Hmode|]. simpl.
        apply Forall_app. split; [exact Hlog | repeat constructor; exact Hpay].
    + rewrite (machines_invalid_returns api st Hv).
      destruct (machines_validate_keeps st) as (Hc & _ & He).
      split.
      * unfold mode_consistent. rewrite He, validate_keeps_display.
        exact Hmode.
      * rewrite Hc. exact Hlog.
  - split; [|exact Hlog]. unfold mode_consistent. simpl. tauto.
  - rewrite applyFilters_shape. split; [exact Hmode | exact Hlog].
  - rewrite applyFilters_shape. split; [exact Hmode | exact Hlog].
  - unfold Machines.handleEdit. destruct (List.find _ _).
    + split; [|exact Hlog]. unfold mode_consistent. simpl.
      split; discriminate.
    + split; [exact Hmode | exact Hlog].
  - destruct confirmed; [|split; [exact Hmode | exact Hlog]].
    destruct (api (Machines.calls st) (toggle_call machineId cur))
      as [value|message] eqn:Hcall.
    + rewrite (machines_toggle_unfold _ _ _ _ _ Hcall).
      match goal with
      | |- context [Machines.loadMachines api ?s] =>
          destruct (loadMachines_keeps_form api s) as (Hf & He & Hc)
      end.
      split.
      * unfold mode_consistent. rewrite Hf, He.
        unfold Machines.resync_edit_form; simpl.
        unfold mode_consistent in Hmode.
        destruct (Machines.editingMachine st) as [e|] eqn:Hedit;
          [destruct (Machines.same_id _ _)|]; simpl; rewrite ?Hedit;
          first [ exact Hmode
                | destruct Hmode as [Hto Hfrom]; split;
                  [discriminate
                  | intros Hd; apply Hfrom in Hd; discriminate Hd] ].
      * rewrite Hc.
        assert (Hcalls : Machines.calls
                  (Machines.resync_edit_form machineId cur
                     (Machines.showFeedback
                        (if cur then "Máquina desactivada."
                         else "Máquina activada.")
                        (if cur then "warning" else "success")
                        (Machines.set_calls
                           (Machines.calls st ++ [toggle_call machineId cur])
                           st)))
                 = (Machines.calls st ++ [toggle_call machineId cur])%list).
        { unfold Machines.resync_edit_form; simpl.
          destruct (Machines.editingMachine st);
            [destruct (Machines.same_id _ _)|]; reflexivity. }
        rewrite Hcalls.
        apply Forall_app. split; [|repeat constructor].
        apply Forall_app. split; [exact Hlog|].
        repeat constructor. unfold toggle_call. destruct cur; exact I.
    + rewrite (machines_toggle_rejected _ _ _ _ _ Hcall).
      split; [exact Hmode|]. simpl.
      apply Forall_app. split; [exact Hlog|].
      repeat constructor. unfold toggle_call. destruct cur; exact I.
Qed.

Lemma machines_fold_invariant (api : Machines.Backend)
    (evs : list MachinesEvent) (st : Machines.State) :
  mode_consistent st ->
  Forall payload_matches_mode (Machines.calls st) ->
  mode_consistent (fold_left (fun s ev => machines_step api ev s) evs st)
  /\ Forall payload_matches_mode
       (Machines.calls (fold_left (fun s ev => machines_step api ev s) evs st)).
Proof.
  revert st. induction evs as [|ev evs IH]; intros st Hmode Hlog; simpl.
  - split; assumption.
  - destruct (machines_step_invariant api ev st Hmode Hlog) as [Hm Hl].
    apply IH; assumption.
Qed.

(** X18: after the first mount and any sequence of events, the status
    selector is hidden exactly when no machine is held, every create sent
    so far carried no [isActive] and every update carried one. *)
Theorem machines_run_invariant (api : Machines.Backend)
    (evs : list MachinesEvent) :
  mode_consistent (machines_run api evs)
  /\ Forall payload_matches_mode (Machines.calls (machines_run api evs)).
Proof.
  unfold machines_run. apply machines_fold_invariant.
  - unfold mountMachines.
    destruct (loadMachines_keeps_form api
                (machines_fresh_markup Machines.initial)) as (Hf & He & _).
    unfold mode_consistent. rewrite Hf, He. simpl. tauto.
  - unfold mountMachines.
    destruct (loadMachines_keeps_form api
                (machines_fresh_markup Machines.initial)) as (_ & _ & Hc).
    rewrite Hc. simpl. repeat constructor.
Qed.

(** The inline errors [validateForm] leaves under the two fields. *)
Lemma machines_validate_errors (st : Machines.State) :
  Machines.error_name (Machines.form (snd (Machines.validateForm st)))
  = (let n := trim (Machines.field_name (Machines.form st)) in
     if negb (truthy n) then "El nombre de la máquina es obligatorio."
     else if Machines.isNameDuplicate n st then
       "Ya existe una máquina llamada " +:+ dquote +:+ n +:+ dquote
       +:+ ". Usa un nombre diferente."
     else "")
  /\ Machines.error_code (Machines.form (snd (Machines.validateForm st)))
     = (let c := trim (Machines.field_code (Machines.form st)) in
        if negb (truthy c) then "El código de la máquina es obligatorio."
        else if Machines.isCodeDuplicate c st then
          "El código " +:+ dquote +:+ c +:+ dquote
          +:+ " ya está en uso. Ingresa un código único."
        else "").
Proof.
  unfold Machines.validateForm; simpl.
  change (Machines.isNameDuplicate ?v (Machines.clearFormErrors st))
    with (Machines.isNameDuplicate v st).
  destruct (negb (truthy (trim (Machines.field_name (Machines.form st)))));
    [|destruct (Machines.isNameDuplicate _ st)];
    simpl;
    match goal with
    | |- context [Machines.isCodeDuplicate ?v ?s] =>
        change (Machines.isCodeDuplicate v s)
          with (Machines.isCodeDuplicate v st)
    end;
    (destruct (negb (truthy (trim (Machines.field_code (Machines.form st)))));
     [|destruct (Machines.isCodeDuplicate _ st)]);
    split; reflexivity.
Qed.

Lemma truthy_true (s : string) : truthy s = true <-> s <> "".
Proof. destruct s; simpl; split; congruence. Qed.

(** X19: validation reports each field on its own: the error under a
    field is empty exactly when that field passes its own checks, so
    several errors can show at once. *)
Theorem validation_reports_each_field :
  (forall st : Machines.State,
     (Machines.error_name (Machines.form (snd (Machines.validateForm st))) = ""
      <-> trim (Machines.field_name (Machines.form st)) <> ""
          /\ Machines.isNameDuplicate
               (trim (Machines.field_name (Machines.form st))) st = false)
     /\ (Machines.error_code (Machines.form (snd (Machines.validateForm st))) = ""
         <-> trim (Machines.field_code (Machines.form st)) <> ""
             /\ Machines.isCodeDuplicate
                  (trim (Machines.field_code (Machines.form st))) st = false))
  /\ (forall st : Products.State,
     (Products.error_name (Products.form (snd (Products.validateForm st))) = ""
      <-> trim (Products.field_name (Products.form st)) <> "")
     /\ (Products.error_type (Products.form (snd (Products.validateForm st))) = ""
         <-> Products.field_type (Products.form st) <> "")
     /\ (Products.error_price_standard
           (Products.form (snd (Products.validateForm st))) = ""
         <-> Products.field_price_standard (Products.form st) <> ""
             /\ number_lt0
                  (Number_ (Products.field_price_standard (Products.form st)))
                = false)).
Proof.
  split; intros st.
  - destruct (machines_validate_errors st) as [-> ->]. cbv zeta.
    split.
    + destruct (truthy (trim (Machines.field_name (Machines.form st))))
        eqn:Ht; simpl.
      * apply truthy_true in Ht.
        destruct (Machines.isNameDuplicate _ st); split;
          try discriminate; try tauto. intros [_ Hd]. discriminate Hd.
      * apply truthy_false in Ht. split; [discriminate | tauto].
    + destruct (truthy (trim (Machines.field_code (Machines.form st))))
        eqn:Ht; simpl.
      * apply truthy_true in Ht.
        destruct (Machines.isCodeDuplicate _ st); split;
          try discriminate; try tauto. intros [_ Hd]. discriminate Hd.
      * apply truthy_false in Ht. split; [discriminate | tauto].
  - unfold Products.validateForm; simpl.
    destruct (truthy (trim (Products.field_name (Products.form st)))) eqn:Hn;
      destruct (truthy (Products.field_type (Products.form st))) eqn:Hty;
      destruct (truthy (Products.field_price_standard (Products.form st)))
        eqn:Hp;
      try destruct (number_lt0 _) eqn:Hlt; simpl;
      rewrite ?truthy_true in *;
      repeat match goal with
      | Hf : truthy _ = false |- _ => apply truthy_false in Hf
      end;
      repeat split; try discriminate; try tauto; try congruence;
      try (intros [Hx Hy]; congruence).
Qed.

End Machines_extra.

Section Products_extra.
Context `{JSBuiltins}.

Lemma products_valid_state (st : Products.State) :
  fst (Products.validateForm st) = true ->
  snd (Products.validateForm st) = Products.clearFormErrors st.
Proof.
  unfold Products.validateForm.
  repeat match goal with
  | |- context [if ?c then _ else _] => destruct c
  end; simpl; intros Hv; try discriminate Hv; reflexivity.
Qed.

(** What a submit of the Products form does once validation has
    passed. *)
Lemma products_submit_valid (api : Products.Backend) (st : Products.State) :
  fst (Products.validateForm st) = true ->
  Products.handleFormSubmit api st
  = let st1 :=
      Products.set_calls (Products.calls st ++ [products_submit_call st])
        (Products.set_submit_btn
           (setButtonLoading (Products.submit_btn st) true)
           (Products.clearFormErrors st)) in
    let st2 :=
      match api (Products.calls st) (products_submit_call st) with
      | Fulfilled _ =>
          Products.loadProducts api
            (Products.resetFormToCreateMode
               (Products.showFeedback
                  (match Products.editingProduct st with
                   | Some _ => "Producto actualizado correctamente."
                   | None => "Producto creado correctamente."
                   end) "success" st1))
      | RejectedWith message =>
          Products.showFeedback ("Error al guardar: " +:+ message) "error" st1
      end in
    Products.set_submit_btn
      (setButtonLoading (Products.submit_btn st2) false) st2.
Proof.
  intros Hv. unfold Products.handleFormSubmit.
  pose proof (products_valid_state st Hv) as Hst.
  destruct (Products.validateForm st) as [valid st']. simpl in Hv, Hst.
  subst valid st'. cbv zeta.
  unfold Products.await, products_submit_call, Products.collectFormData.
  destruct st as [editing cache f btn q badge t b cs].
  destruct f. destruct editing as [e|]; simpl;
    match goal with
    | |- context [api ?h ?c] => destruct (api h c)
    end; reflexivity.
Qed.

(** X20: [mountProducts] does not clear [editingProduct]: remounting
    while a product is held shows the fresh create form, and the next
    submit that passes validation sends an update of the held product. *)
Theorem remount_keeps_edit_target (api : Products.Backend)
    (st : Products.State) (e : Products.Product)
    (n t std inv active : string) :
  Products.editingProduct st = Some e ->
  fst (Products.validateForm
         (products_fill n t std inv active (mountProducts api st))) = true ->
  Products.form (mountProducts api st) = Products.form Products.initial
  /\ Products.editingProduct (mountProducts api st) = Some e
  /\ exists payload rest,
       Products.calls
         (Products.handleFormSubmit api
            (products_fill n t std inv active (mountProducts api st)))
       = (Products.calls st
          ++ Products.GetAll :: Products.Update (Products.id e) payload
             :: rest)%list.
Proof.
  intros Hedit Hv.
  destruct (loadProducts_keeps_form api (products_fresh_markup st))
    as (Hform & Hed & Hcalls).
  fold (mountProducts api st) in Hform, Hed, Hcalls.
  simpl in Hed, Hcalls. rewrite Hedit in Hed.
  split; [exact Hform|]. split; [exact Hed|].
  rewrite (products_submit_valid api _ Hv). cbv zeta.
  unfold products_submit_call.
  change (Products.editingProduct
            (products_fill n t std inv active (mountProducts api st)))
    with (Products.editingProduct (mountProducts api st)).
  change (Products.calls
            (products_fill n t std inv active (mountProducts api st)))
    with (Products.calls (mountProducts api st)).
  rewrite Hed, Hcalls.
  exists (Products.collectFormData
            (products_fill n t std inv active (mountProducts api st))).
  destruct (api _ (Products.Update _ _)).
  - match goal with
    | |- context [Products.loadProducts api ?s] =>
        destruct (loadProducts_keeps_form api s) as (_ & _ & Hc2)
    end.
    exists [Products.GetAll].
    match goal with
    | |- Products.calls (Products.set_submit_btn _ ?s) = _ =>
        change (Products.calls s = (Products.calls st
          ++ Products.GetAll
             :: Products.Update (Products.id e)
                  (Products.collectFormData
                     (products_fill n t std inv active (mountProducts api st)))
             :: [Products.GetAll])%list)
    end.
    rewrite Hc2. simpl. rewrite <- !app_assoc. reflexivity.
  - exists []. simpl. rewrite <- app_assoc. reflexivity.
Qed.

(** X21: [handleEdit] of Products with an id no cached product has
    changes nothing; otherwise it holds the first product with that id
    and fills the form from it: the name as a text input holds it,
    without line breaks, the status [true] unless the flag is [false],
    the type select showing a type only when it is one of its
    options. *)
Theorem products_handleEdit_lookup (productId : string) (st : Products.State) :
  ((forall p, In p (Products.allProducts st) ->
      String_ (Products.id p) <> productId) ->
   Products.handleEdit productId st = st)
  /\ ((exists p, In p (Products.allProducts st)
         /\ String_ (Products.id p) = productId) ->
      exists p,
        List.find (fun x => Products.same_id x productId)
          (Products.allProducts st) = Some p
        /\ In p (Products.allProducts st)
        /\ String_ (Products.id p) = productId
        /\ Products.editingProduct (Products.handleEdit productId st) = Some p
        /\ Products.field_name (Products.form (Products.handleEdit productId st))
           = text_input_value (Products.name p)
        /\ Products.field_active
             (Products.form (Products.handleEdit productId st))
           = String_of_bool (not_strictly_false (Products.active p))
        /\ (Products.type p = "produced" \/ Products.type p = "resale" ->
            Products.field_type
              (Products.form (Products.handleEdit productId st))
            = Products.type p)
        /\ (~ In (Products.type p) [""; "produced"; "resale"] ->
            Products.field_type
              (Products.form (Products.handleEdit productId st)) = ""))
  /\ Products.allProducts (Products.handleEdit productId st)
     = Products.allProducts st
  /\ Products.calls (Products.handleEdit productId st) = Products.calls st
  /\ (forall s, ~ In 10%N (bytes s) -> ~ In 13%N (bytes s) ->
      text_input_value s = s).
Proof.
  assert (Hplain : forall s, ~ In 10%N (bytes s) -> ~ In 13%N (bytes s) ->
                     text_input_value s = s).
  { intros s Hlf Hcr. apply (text_controls_plain s Hlf Hcr). }
  unfold Products.handleEdit.
  destruct (List.find _ _) as [p|] eqn:Hfind.
  - apply List.find_some in Hfind as Hp. destruct Hp as [Hin Hid].
    apply str_eqb_true in Hid.
    split; [|split; [|split; [|split]]];
      [| |reflexivity|reflexivity|exact Hplain].
    + intros Hnone. destruct (Hnone p Hin Hid).
    + intros _. exists p. simpl.
      split; [reflexivity|]. split; [exact Hin|]. split; [exact Hid|].
      split; [reflexivity|]. split; [reflexivity|]. split; [reflexivity|].
      unfold Products.select_value. split.
      * intros [-> | ->]; reflexivity.
      * intros Hnot.
        destruct (existsb _ _) eqn:Hex; [|reflexivity].
        apply List.existsb_exists in Hex as (o & Ho & Heq).
        apply str_eqb_true in Heq. subst o. contradiction.
  - split; [reflexivity|].
    split; [|split; [|split]]; [|reflexivity|reflexivity|exact Hplain].
    intros (p & Hin & Hid).
    pose proof (List.find_none _ _ Hfind p Hin) as Hf.
    apply str_eqb_false in Hf. contradiction.
Qed.

(** X22: editing a product whose standard price is missing or zero
    leaves the price input empty, so submitting the form as populated
    fails validation on the price and makes no call. *)
Theorem edit_of_zero_price_fails_validation (productId : string)
    (st : Products.State) (p : Products.Product) :
  List.find (fun x => Products.same_id x productId) (Products.allProducts st)
    = Some p ->
  (Products.priceStandard p = None
   \/ exists q, Products.priceStandard p = Some (Fin q) /\ (q == 0)%Q) ->
  Products.field_price_standard
    (Products.form (Products.handleEdit productId st)) = ""
  /\ fst (Products.validateForm (Products.handleEdit productId st)) = false
  /\ Products.error_price_standard
       (Products.form
          (snd (Products.validateForm (Products.handleEdit productId st))))
     = "Ingresa un precio estándar válido."
  /\ forall api,
       Products.calls
         (Products.handleFormSubmit api (Products.handleEdit productId st))
       = Products.calls st.
Proof.
  intros Hfind Hprice.
  assert (Hfield : Products.field_price_standard
            (Products.form (Products.handleEdit productId st)) = "").
  { unfold Products.handleEdit. rewrite Hfind. simpl.
    unfold Products.price_value.
    destruct Hprice as [-> | (q & -> & Hq)]; [reflexivity|].
    simpl. apply Qeq_bool_iff in Hq. rewrite Hq. reflexivity. }
  assert (Hv : fst (Products.validateForm (Products.handleEdit productId st))
               = false).
  { apply not_true_is_false. rewrite products_valid_iff.
    intros (_ & _ & Hp & _). contradiction. }
  split; [exact Hfield|]. split; [exact Hv|]. split.
  - unfold Products.validateForm; simpl. rewrite Hfield. simpl.
    repeat match goal with
    | |- context [if ?c then _ else _] => destruct c
    end; reflexivity.
  - intros api. rewrite (products_invalid_returns api _ Hv).
    destruct (products_validate_keeps (Products.handleEdit productId st))
      as (-> & _).
    unfold Products.handleEdit. rewrite Hfind. reflexivity.
Qed.

(** X23: a Products submit that passes validation makes its create or
    update; fulfilled, it reloads, resets the form to create mode and
    shows the success banner; rejected, it makes no further call and keeps
    the cache, the table, the held product and what the user typed, and
    the banner shows the rejection's message. *)
Theorem products_submit_outcomes (api : Products.Backend)
    (st : Products.State) :
  fst (Products.validateForm st) = true ->
  (forall value,
     api (Products.calls st) (products_submit_call st) = Fulfilled value ->
     Products.calls (Products.handleFormSubmit api st)
       = (Products.calls st ++ [products_submit_call st; Products.GetAll])%list
     /\ Products.editingProduct (Products.handleFormSubmit api st) = None
     /\ Products.form (Products.handleFormSubmit api st)
        = Products.form Products.initial
     /\ disabled (Products.submit_btn (Products.handleFormSubmit api st))
        = false
     /\ (forall products,
          api (Products.calls st ++ [products_submit_call st])%list
            Products.GetAll = Fulfilled products ->
          Products.allProducts (Products.handleFormSubmit api st) = products
          /\ Products.banner (Products.handleFormSubmit api st)
             = Some {| Products.banner_text :=
                         match Products.editingProduct st with
                         | Some _ => "Producto actualizado correctamente."
                         | None => "Producto creado correctamente."
                         end;
                       Products.banner_type := "success" |}))
  /\ (forall message,
     api (Products.calls st) (products_submit_call st) = RejectedWith message ->
     Products.calls (Products.handleFormSubmit api st)
       = (Products.calls st ++ [products_submit_call st])%list
     /\ Products.allProducts (Products.handleFormSubmit api st)
        = Products.allProducts st
     /\ Products.table (Products.handleFormSubmit api st) = Products.table st
     /\ Products.editingProduct (Products.handleFormSubmit api st)
        = Products.editingProduct st
     /\ Products.form (Products.handleFormSubmit api st)
        = Products.form (Products.clearFormErrors st)
     /\ Products.collectFormData (Products.handleFormSubmit api st)
        = Products.collectFormData st
     /\ disabled (Products.submit_btn (Products.handleFormSubmit api st))
        = false
     /\ Products.banner (Products.handleFormSubmit api st)
        = Some {| Products.banner_text := "Error al guardar: " +:+ message;
                  Products.banner_type := "error" |}).
Proof.
  intros Hv. rewrite (products_submit_valid api st Hv). simpl. split.
  - intros value Hcall. rewrite Hcall. simpl.
    set (st3 := Products.resetFormToCreateMode _).
    destruct (loadProducts_keeps_form api st3) as (Hform & Hedit & Hcalls).
    split; [|split; [|split; [|split]]].
    + rewrite Hcalls. subst st3. simpl. rewrite <- app_assoc. reflexivity.
    + rewrite Hedit. reflexivity.
    + rewrite Hform. reflexivity.
    + reflexivity.
    + intros products Hget.
      unfold Products.loadProducts, Products.await.
      change (Products.calls (Products.showTableLoading true st3))
        with (Products.calls st ++ [products_submit_call st])%list.
      rewrite Hget. split; reflexivity.
  - intros message Hcall. rewrite Hcall. repeat split.
Qed.

End Products_extra.

(** ** Runs on concrete pages *)

#[local] Existing Instance ascii_builtins.

Example lower_run : toLowerCase "INY-001 b" = "iny-001 b".
Proof. reflexivity. Qed.
Example trim_run : trim "  Torno 2 " = "Torno 2".
Proof. reflexivity. Qed.
Example parseFloat_run :
  map parseFloat ["12.50"; "0"; ""; "abc"; "-3"; " 7x"]
  = [Fin (25 # 2); Fin 0; NaN; NaN; Fin (-3); Fin 7].
Proof. reflexivity. Qed.
Example Number_run :
  map Number_ ["12.50"; ""; "abc"; "-3"; "7x"]
  = [Fin (25 # 2); Fin 0; NaN; Fin (-3); NaN].
Proof. reflexivity. Qed.
Example toString_run :
  map number_toString [Fin (25 # 2); Fin 0; Fin (-3); NaN]
  = ["12.5"; "0"; "-3"; "NaN"].
Proof. reflexivity. Qed.
Example includes_run :
  (includes "inyectora" "yec", includes "inyectora" "", includes "" "a")
  = (true, true, false).
Proof. reflexivity. Qed.

Lemma request_response_handling_witness :
  Api.request (always db_down) "/products" no_options
    = Api.Rejected "db down"
  /\ Api.request (always unprintable_message) "/products" no_options
    = Api.RejectedTypeError.
Proof.
  split.
  - refine (proj1 (proj1
      (request_response_handling (always db_down) "/products" no_options
         db_down _) _) "db down" _ _).
    + reflexivity.
    + reflexivity.
    + reflexivity.
    + discriminate.
  - refine (proj1 (proj2 (proj2 (proj2 (proj1
      (request_response_handling (always unprintable_message) "/products"
         no_options unprintable_message _) _))))
      [("toString", JNum (Fin 1))] (JNum (Fin 1)) _ _);
      reflexivity.
Defined.

(** C8 as stated fails: a 500 whose JSON body carries the [message] [""]
    is rejected with the generic message, not with the body's message. *)
Lemma request_empty_message_counterexample :
  body_message empty_message = Some (JStr "")
  /\ Api.request (always empty_message) "/products" no_options
      = Api.Rejected "Error 500: Internal Server Error"
  /\ Api.request (always empty_message) "/products" no_options
      <> Api.Rejected (spec_error_message empty_message).
Proof.
  split; [reflexivity|]. split; [reflexivity|]. vm_compute. discriminate.
Qed.

(** The scenarios of the specification. *)

Example scenario_inactive_filter :
  Machines.filter_results (with_filters "" Inactive machines_page) = [m2]
  /\ Machines.count_badge
       (Machines.applyFilters (with_filters "" Inactive machines_page))
     = "1 de 2 máquinas".
Proof. split; reflexivity. Qed.

Example scenario_missing_flag_is_active :
  Machines.filter_results (with_filters "" Active machines_only_m3) = [m3]
  /\ Machines.filter_results (with_filters "" Inactive machines_only_m3) = [].
Proof. split; reflexivity. Qed.

Example scenario_create_empty_name :
  let st := Machines.handleFormSubmit machines_backend
              (machines_with_form "   " "C9" machines_page) in
  Machines.error_name (Machines.form st)
    = "El nombre de la máquina es obligatorio."
  /\ Machines.calls st = [Machines.GetAll]
  /\ Machines.allMachines st = [m1; m2].
Proof. repeat split. Qed.

Example scenario_toggle_edited :
  let st := Machines.handleToggleStatus machines_backend true "2" false
              machines_editing_m2 in
  Machines.field_active (Machines.form machines_editing_m2) = "false"
  /\ Machines.field_active (Machines.form st) = "true"
  /\ Machines.allMachines st = [m1; m2_active]
  /\ Machines.calls st
     = [Machines.GetAll; Machines.Activate "2"; Machines.GetAll].
Proof. repeat split. Qed.

Example scenario_create_fails :
  let st := Machines.handleFormSubmit machines_down
              (machines_with_form "Prensa" "P-1" machines_editing_m2) in
  Machines.toasts st
    = [{| Machines.toast_message := "Error al guardar: db down";
          Machines.toast_type := "error" |}]
  /\ Machines.editingMachine st = Some m2
  /\ Machines.field_name (Machines.form st) = "Prensa".
Proof. repeat split. Qed.

Example scenario_create_answered_500 :
  Api.ProductsAPI_create (always db_down)
    (JObj [("name", JStr "Vaso"); ("active", JBool true)])
    = Api.Rejected "db down"
  /\ Products.banner
       (Products.handleFormSubmit products_down
          (products_with_form "Vaso" "resale" "12.50" "" products_editing_p1))
     = Some {| Products.banner_text := "Error al guardar: db down";
               Products.banner_type := "error" |}
  /\ Products.editingProduct
       (Products.handleFormSubmit products_down
          (products_with_form "Vaso" "resale" "12.50" "" products_editing_p1))
     = Some p1.
Proof. repeat split. Qed.

Example scenario_submit_valid_product :
  let st := Products.handleFormSubmit products_backend
              (products_with_form "Vaso" "resale" "12.50" "" products_page) in
  Products.calls st
    = [Products.GetAll;
       Products.Create
         {| Products.p_name := "Vaso"; Products.p_type := "resale";
            Products.p_priceStandard := Fin (25 # 2);
            Products.p_priceInvestor := None;
            Products.p_active := true |};
       Products.GetAll]
  /\ Products.banner st
     = Some {| Products.banner_text := "Producto creado correctamente.";
               Products.banner_type := "success" |}.
Proof. repeat split. Qed.

(** Witnesses and counterexamples. *)

Lemma validation_uniqueness_witness :
  fst (Machines.validateForm (machines_with_form " a " "C9" machines_page))
    = false
  /\ Machines.calls
       (Machines.handleFormSubmit machines_backend
          (machines_with_form " a " "C9" machines_page))
     = Machines.calls (machines_with_form " a " "C9" machines_page).
Proof.
  apply (proj1 (proj2 validation_uniqueness) machines_backend
           (machines_with_form " a " "C9" machines_page)).
  left. exists m1. split; [left; reflexivity|].
  split; [intros e He; discriminate He | reflexivity].
Defined.

(** C1 as stated fails for Products: a create whose name is that of a
    cached product passes validation and reaches the backend. *)
Lemma products_duplicate_name_counterexample :
  let st := products_with_form " tapa " "produced" "10" "" products_page in
  product_name_taken st
  /\ fst (Products.validateForm st) = true
  /\ Products.calls (Products.handleFormSubmit products_backend st)
     = [Products.GetAll;
        Products.Create
          {| Products.p_name := "tapa"; Products.p_type := "produced";
             Products.p_priceStandard := Fin 10;
             Products.p_priceInvestor := None;
             Products.p_active := true |};
        Products.GetAll]
  /\ Products.calls (Products.handleFormSubmit products_backend st)
     <> Products.calls st.
Proof.
  split; [|split; [reflexivity | split; [reflexivity | discriminate]]].
  exists p1. split; [left; reflexivity|].
  split; [intros e He; discriminate He | reflexivity].
Qed.

Lemma toggle_resyncs_edit_form_witness :
  Machines.field_active (Machines.form
    (Machines.handleToggleStatus machines_backend true "2" false
       machines_editing_m2))
  = "true".
Proof.
  apply (proj1 (proj1 toggle_resyncs_edit_form machines_backend
                  machines_editing_m2 "2" false m2 []
                  eq_refl eq_refl eq_refl)).
Defined.

(** C2 as stated fails for Products: [p1] is held in the edit form and
    shown as active; deactivating it succeeds and the list is reloaded,
    yet the form's status field still reads [true]. *)
Lemma products_toggle_stale_counterexample :
  let st := Products.handleToggleStatus products_backend true "1" true
              products_editing_p1 in
  Products.editingProduct products_editing_p1 = Some p1
  /\ String_ (Products.id p1) = "1"
  /\ Products.allProducts st = [p1_inactive; p2]
  /\ Products.field_active (Products.form st) = "true"
  /\ Products.field_active (Products.form st) <> String_of_bool (negb true).
Proof. repeat split. discriminate. Qed.

Lemma count_badge_after_filtering_witness :
  Products.count_badge products_page = "2 productos".
Proof.
  apply (proj2 (proj2 count_badge_after_filtering) products_backend
           Products.initial [p1; p2] eq_refl).
Defined.

(** C3 as stated fails for Products: with two products cached, a search
    that leaves one of them keeps the badge of the last load. *)
Lemma products_badge_counterexample :
  let st := Products.set_search "tapa" products_page in
  length (Products.search_results st) = 1%nat
  /\ length (Products.allProducts st) = 2%nat
  /\ Products.count_badge (Products.handleSearch st) = "2 productos"
  /\ Products.count_badge (Products.handleSearch st)
     <> spec_badge "producto" (length (Products.search_results st))
          (length (Products.allProducts st)).
Proof. repeat split. discriminate. Qed.

Lemma filter_output_exact_witness :
  In m3 (Machines.filter_results (with_filters " TOR" Active machines_only_m3)).
Proof.
  apply (proj2 (proj2 filter_output_exact) " TOR" machines_only_m3 m3).
  - left. reflexivity.
  - reflexivity.
  - reflexivity.
Defined.

Lemma filter_idempotent_order_preserving_witness :
  Machines.filter_results (with_filters "c" Active machines_page)
  = Machines.filter_results (with_filters "c" Active machines_editing_m2).
Proof.
  apply (proj1 filter_idempotent_order_preserving
           (with_filters "c" Active machines_page)
           (with_filters "c" Active machines_editing_m2));
    reflexivity.
Defined.

Lemma load_failure_keeps_cache_witness :
  Machines.allMachines (Machines.loadMachines machines_down machines_page)
    = [m1; m2]
  /\ Products.allProducts (Products.loadProducts products_down products_page)
    = [p1; p2].
Proof.
  split.
  - apply (proj1 (proj1 load_failure_keeps_cache machines_down machines_page
                    "db down" eq_refl)).
  - apply (proj1 (proj2 load_failure_keeps_cache products_down products_page
                    "db down" eq_refl)).
Defined.

Lemma invalid_submit_makes_no_call_witness :
  Machines.calls
    (Machines.handleFormSubmit machines_backend
       (machines_with_form "   " "C9" machines_page))
    = [Machines.GetAll]
  /\ Products.calls
       (Products.handleFormSubmit products_backend
          (products_with_form "" "produced" "10" "" products_page))
    = [Products.GetAll].
Proof.
  split.
  - refine (proj1 (proj1 invalid_submit_makes_no_call machines_backend
                     (machines_with_form "   " "C9" machines_page) _)).
    reflexivity.
  - refine (proj1 (proj1 (proj2 (proj2 invalid_submit_makes_no_call))
                     products_backend
                     (products_with_form "" "produced" "10" "" products_page)
                     _)).
    reflexivity.
Defined.

Lemma duplicate_checks_exclude_edited_witness :
  Machines.isNameDuplicate (Machines.name m2) machines_editing_m2 = false.
Proof.
  apply (proj1 (proj2 (duplicate_checks_exclude_edited
                         machines_editing_m2 m2 eq_refl))).
  intros m [<- | [<- | []]] Hid.
  - discriminate.
  - destruct Hid. reflexivity.
Defined.

Lemma collectFormData_prices_witness :
  Products.p_priceInvestor
    (Products.collectFormData
       (products_with_form "Vaso" "resale" "abc" "0" products_page))
    = None
  /\ Products.p_priceStandard
       (Products.collectFormData
          (products_with_form "Vaso" "resale" "abc" "0" products_page))
    = Fin 0.
Proof.
  split.
  - apply (proj1 (collectFormData_prices
                    (products_with_form "Vaso" "resale" "abc" "0"
                       products_page))).
    right. exists 0%Q. split; reflexivity.
  - apply (proj2 (proj2 (collectFormData_prices
                    (products_with_form "Vaso" "resale" "abc" "0"
                       products_page)))).
    reflexivity.
Defined.

(** Witnesses of the further properties. *)

Lemma request_settles_witness :
  Api.request (always ok_empty_list) "/products" no_options
    = Api.Resolved (JArr []).
Proof.
  apply (proj2 (proj1 (request_settles (always ok_empty_list) "/products"
                         no_options) (JArr []))).
  exists ok_empty_list. split; [reflexivity|].
  split; [simpl; lia|]. right. split; [discriminate | reflexivity].
Defined.

Lemma escapeHTML_no_markup_witness : escapeHTML "Torno 2" = "Torno 2".
Proof.
  apply (proj2 (proj2 (escapeHTML_no_markup "Torno 2"))). reflexivity.
Defined.

Example escapeHTML_run :
  escapeHTML "<b>Tapa & Cía</b>" = "&lt;b&gt;Tapa &amp; Cía&lt;/b&gt;".
Proof. reflexivity. Qed.

Lemma navigate_links_witness :
  Router.navigate None page_without_container = page_without_container.
Proof.
  apply (proj1 (navigate_links None page_without_container)). reflexivity.
Defined.

Lemma navigate_fallback_witness :
  Router.document_title (Router.navigate None (page_at "#foo"))
    = "Dashboard — CapFlow".
Proof.
  apply (proj1 (navigate_fallback None (page_at "#foo") Router.Spinner
                  eq_refl eq_refl eq_refl)).
Defined.

Example navigate_run :
  map Router.link_active (Router.links (Router.navigate None (page_at "#foo")))
    = [false; false]
  /\ map Router.link_active (Router.links (Router.navigate None (page_at "")))
    = [true; false]
  /\ Router.container (Router.navigate None (page_at "#toString"))
    = Some (Router.LoadError Router.LoaderNotAFunction).
Proof. repeat split. Qed.

Lemma navigate_views_witness :
  Router.container (Router.navigate None (page_at "#products"))
    = Some Router.ProductsModule.
Proof.
  apply (proj1 (navigate_views None (page_at "#products") Router.Spinner
                  eq_refl) eq_refl).
Defined.


Lemma machines_handleEdit_lookup_witness :
  Machines.handleEdit "99" machines_page = machines_page
  /\ exists m,
       Machines.editingMachine (Machines.handleEdit "L1" machines_with_lines)
         = Some m
       /\ Machines.field_name
            (Machines.form (Machines.handleEdit "L1" machines_with_lines))
          = text_input_value (Machines.name m)
       /\ Machines.field_notes
            (Machines.form (Machines.handleEdit "L1" machines_with_lines))
          = textarea_value (default "" (Machines.notes m)).
Proof.
  split.
  - apply (proj1 (machines_handleEdit_lookup "99" machines_page)).
    intros m [<- | [<- | []]]; vm_compute; discriminate.
  - destruct (proj1 (proj2 (machines_handleEdit_lookup "L1"
                              machines_with_lines))
                (ex_intro _ m_lines (conj (or_intror (or_introl eq_refl))
                                          eq_refl)))
      as (m & _ & _ & _ & Hheld & Hname & _ & Hnotes & _).
    exists m. split; [exact Hheld|]. split; [exact Hname | exact Hnotes].
Defined.

Example handleEdit_line_breaks_run :
  let f := Machines.form (Machines.handleEdit "L1" machines_with_lines) in
  Machines.field_name f = "Torno"
  /\ Machines.field_code f = "T-9"
  /\ Machines.field_notes f
     = "fila 1" +:+ line_feed +:+ "fila 2" +:+ line_feed +:+ "fila 3"
  /\ Machines.field_active f = "true".
Proof. repeat split. Qed.

Lemma machines_submit_success_witness :
  Machines.calls
    (Machines.handleFormSubmit machines_backend
       (machines_with_form "Prensa" "P-1" machines_page))
  = (Machines.calls (machines_with_form "Prensa" "P-1" machines_page)
     ++ [machines_submit_call (machines_with_form "Prensa" "P-1" machines_page);
         Machines.GetAll])%list.
Proof.
  refine (proj1 (machines_submit_success machines_backend
                   (machines_with_form "Prensa" "P-1" machines_page) [] _ _));
    reflexivity.
Defined.

Lemma machines_submit_rejected_witness :
  Machines.allMachines
    (Machines.handleFormSubmit machines_down
       (machines_with_form "Prensa" "P-1" machines_editing_m2))
  = Machines.allMachines (machines_with_form "Prensa" "P-1" machines_editing_m2).
Proof.
  refine (proj1 (proj2 (machines_submit_rejected machines_down
                   (machines_with_form "Prensa" "P-1" machines_editing_m2)
                   "db down" _ _)));
    reflexivity.
Defined.

Lemma submit_button_keeps_first_caption_witness :
  innerHTML (Machines.submit_btn
    (Machines.handleFormSubmit machines_backend
       (machines_with_form "Prensa" "P-1" machines_editing_m2)))
  = MarkupEdit.
Proof.
  refine (proj1 (submit_button_keeps_first_caption machines_backend
                   (machines_with_form "Prensa" "P-1" machines_editing_m2) _)).
  reflexivity.
Defined.

Example stale_caption_run :
  let st := Machines.handleFormSubmit machines_backend
              (machines_with_form "Prensa" "P-1" machines_editing_m2) in
  Machines.editingMachine st = None
  /\ Machines.form_title (Machines.form st) = MarkupCreate
  /\ innerHTML (Machines.submit_btn st) = MarkupEdit.
Proof. repeat split. Qed.

Lemma toggle_declined_or_rejected_witness :
  Machines.allMachines
    (Machines.handleToggleStatus machines_down true "2" false machines_page)
  = Machines.allMachines machines_page.
Proof.
  apply (proj1 (proj1 (proj2 toggle_declined_or_rejected) machines_down "2"
                  false machines_page "db down" eq_refl)).
Defined.

Lemma toggle_of_another_machine_keeps_form_witness :
  Machines.form
    (Machines.handleToggleStatus machines_backend true "1" true
       machines_editing_m2)
  = Machines.form machines_editing_m2.
Proof.
  refine (proj1 (toggle_of_another_machine_keeps_form machines_backend "1"
                   true true machines_editing_m2 _)).
  intros e [= <-]. vm_compute. discriminate.
Defined.

Lemma load_success_replaces_cache_witness :
  Machines.allMachines (Machines.loadMachines machines_backend machines_page)
    = [m1; m2]
  /\ Products.allProducts
       (Products.loadProducts products_backend
          (Products.set_search "tapa" products_page))
     = [p1; p2].
Proof.
  split.
  - apply (proj1 (proj1 load_success_replaces_cache machines_backend
                    machines_page [m1; m2] eq_refl)).
  - apply (proj1 (proj2 load_success_replaces_cache products_backend
                    (Products.set_search "tapa" products_page) [p1; p2]
                    eq_refl)).
Defined.

Example reload_search_run :
  let st := Products.loadProducts products_backend
              (Products.set_search "tapa" products_page) in
  Products.search st = "tapa"
  /\ Products.search_results st = [p1]
  /\ tbody (Products.table st) = [p1; p2].
Proof. repeat split. Qed.

Lemma blank_filters_show_whole_cache_witness :
  Machines.filter_results (with_filters "   " All machines_page) = [m1; m2].
Proof.
  refine (proj1 (proj1 blank_filters_show_whole_cache
                   (with_filters "   " All machines_page) _ _)).
  - reflexivity.
  - right. reflexivity.
Defined.

Example machines_run_example :
  let st := machines_run machines_backend
              [ClickEdit "2"; FillForm "B" "C2" "nota" "true"; SubmitForm;
               FillForm "Prensa" "P-1" "" "true"; SubmitForm] in
  Machines.calls st
  = [Machines.GetAll;
     Machines.Update (IdNum 2)
       {| Machines.p_name := "B"; Machines.p_code := "C2";
          Machines.p_notes := "nota"; Machines.p_isActive := Some true |};
     Machines.GetAll;
     Machines.Create
       {| Machines.p_name := "Prensa"; Machines.p_code := "P-1";
          Machines.p_notes := ""; Machines.p_isActive := None |};
     Machines.GetAll].
Proof. reflexivity. Qed.

Lemma remount_keeps_edit_target_witness :
  Products.editingProduct (mountProducts products_backend products_editing_p1)
    = Some p1.
Proof.
  refine (proj1 (proj2 (remount_keeps_edit_target products_backend
                          products_editing_p1 p1
                          "Vaso" "resale" "12.50" "" "true" _ _)));
    reflexivity.
Defined.

Example remount_run :
  Products.calls
    (Products.handleFormSubmit products_backend
       (products_fill "Vaso" "resale" "12.50" "" "true"
          (mountProducts products_backend products_editing_p1)))
  = [Products.GetAll; Products.GetAll;
     Products.Update (IdNum 1)
       {| Products.p_name := "Vaso"; Products.p_type := "resale";
          Products.p_priceStandard := Fin (25 # 2);
          Products.p_priceInvestor := None; Products.p_active := true |};
     Products.GetAll].
Proof. reflexivity. Qed.

Lemma products_handleEdit_lookup_witness :
  Products.handleEdit "99" products_page = products_page
  /\ exists p,
       Products.editingProduct (Products.handleEdit "7" products_with_lines)
         = Some p
       /\ Products.field_name
            (Products.form (Products.handleEdit "7" products_with_lines))
          = text_input_value (Products.name p).
Proof.
  split.
  - apply (proj1 (products_handleEdit_lookup "99" products_page)).
    intros p [<- | [<- | []]]; vm_compute; discriminate.
  - destruct (proj1 (proj2 (products_handleEdit_lookup "7"
                              products_with_lines))
                (ex_intro _ p_lines (conj (or_intror (or_introl eq_refl))
                                          eq_refl)))
      as (p & _ & _ & _ & Hheld & Hname & _).
    exists p. split; [exact Hheld | exact Hname].
Defined.

Example products_handleEdit_run :
  let f := Products.form (Products.handleEdit "7" products_with_lines) in
  Products.field_name f = "Tapa roja"
  /\ Products.field_type f = ""
  /\ Products.field_price_standard f = "3"
  /\ Products.field_active f = "false".
Proof. repeat split. Qed.

Lemma edit_of_zero_price_fails_validation_witness :
  fst (Products.validateForm (Products.handleEdit "f7" products_free_page))
    = false.
Proof.
  refine (proj1 (proj2 (edit_of_zero_price_fails_validation "f7"
                          products_free_page p_free _ _))).
  - reflexivity.
  - right. exists 0%Q. split; reflexivity.
Defined.

Lemma products_submit_outcomes_witness :
  Products.editingProduct
    (Products.handleFormSubmit products_down
       (products_with_form "Vaso" "resale" "12.50" "" products_editing_p1))
  = Some p1.
Proof.
  refine (proj1 (proj2 (proj2 (proj2 (proj2
            (products_submit_outcomes products_down
               (products_with_form "Vaso" "resale" "12.50" ""
                  products_editing_p1) _) "db down" _)))));
    reflexivity.
Defined.
